(** * drivers/gpu/drm/panel/panel-simple.c

    A shallow embedding of the simple-panel DRM driver (the sc20 tree, with
    the ILI9881C bring-up sequence inlined into the DSI probe) and the
    properties of its enable/disable state machine, mode provider and probe
    path.

    The driver talks to the rest of the kernel through calls whose bodies
    are not part of this file (regulator, GPIO, backlight, DDC/EDID, DSI
    host, DRM core).  The embedding keeps them abstract:

    - every such call is recorded, in program order, in the [calls] history
      of the [world];
    - the value a call returns is given by an [env] of oracles that may
      depend on the whole history up to and including the call, so any
      deterministic behaviour of the collaborators is covered;
    - constants and inline helpers that come from kernel headers are the
      fields of the class [kernel_headers]. *)

From Stdlib Require Import ZArith List String Bool Lia.
Import ListNotations.
Local Open Scope string_scope.
Local Open Scope list_scope.
Local Open Scope Z_scope.

Set Implicit Arguments.

(** ** Kernel headers *)

(** What panel-simple.c takes from the headers it includes.  None of these
    is defined in the driver, so they are parameters of the development. *)
Class kernel_headers := {
  (* <linux/gpio.h>: static inline bool gpio_is_valid(int number) *)
  gpio_is_valid : Z -> bool;
  (* <linux/of_gpio.h>: enum of_gpio_flags *)
  OF_GPIO_ACTIVE_LOW : Z;
  (* <linux/fb.h> *)
  FB_BLANK_UNBLANK : Z;
  FB_BLANK_POWERDOWN : Z;
  (* <linux/errno.h> *)
  ENOMEM : Z;
  ENODEV : Z;
  EPROBE_DEFER : Z;
  (* <drm/drm_mipi_dsi.h>: DSI mode flags *)
  MIPI_DSI_MODE_VIDEO : Z;
  MIPI_DSI_MODE_VIDEO_SYNC_PULSE : Z;
  MIPI_DSI_MODE_VIDEO_HSE : Z;
  MIPI_DSI_CLOCK_NON_CONTINUOUS : Z
}.

(** <drm/drm_mipi_dsi.h>: enum mipi_dsi_pixel_format *)
Inductive mipi_dsi_pixel_format :=
| MIPI_DSI_FMT_RGB888
| MIPI_DSI_FMT_RGB666
| MIPI_DSI_FMT_RGB666_PACKED
| MIPI_DSI_FMT_RGB565.

(** ** C integers *)

(** A C condition: nonzero is true. *)
Definition c_true (z : Z) : bool := negb (z =? 0).

(** Conversion to [unsigned int] and to [int] (two's complement, 32 bit). *)
Definition to_uint (z : Z) : Z := z mod 2 ^ 32.
Definition to_int (z : Z) : Z := (z + 2 ^ 31) mod 2 ^ 32 - 2 ^ 31.

(** ** Data *)

(** struct drm_display_mode, the fields the descriptors initialise. *)
Record drm_display_mode := {
  clock : Z;
  hdisplay : Z; hsync_start : Z; hsync_end : Z; htotal : Z;
  vdisplay : Z; vsync_start : Z; vsync_end : Z; vtotal : Z;
  vrefresh : Z
}.

(** The anonymous [size] struct of a descriptor. *)
Record panel_size := { width : Z; height : Z }.

(** struct panel_desc.  [modes] points at [num_modes] entries; the array is
    a list and [num_modes] its length. *)
Record panel_desc := {
  modes : list drm_display_mode;
  size : panel_size
}.

Definition num_modes (d : panel_desc) : Z := Z.of_nat (List.length (modes d)).

(** #define GPIO_ACTIVE_LOW (1 << 0) *)
Definition GPIO_ACTIVE_LOW : Z := Z.shiftl 1 0.

(** struct panel_simple.  Pointers that the code tests against NULL are
    options; [supply], a backlight and a DDC adapter are handles. *)
Record panel_simple := {
  enabled : bool;
  desc : option panel_desc;
  backlight : option Z;
  supply : Z;
  ddc : option Z;
  enable_gpio_flags : Z;
  enable_gpio : Z
}.

Definition set_enabled (p : panel_simple) (b : bool) : panel_simple :=
  {| enabled := b; desc := desc p; backlight := backlight p;
     supply := supply p; ddc := ddc p;
     enable_gpio_flags := enable_gpio_flags p; enable_gpio := enable_gpio p |}.

(** struct edid, an opaque blob of bytes. *)
Definition edid := list Z.

(** ** The outside world *)

(** References the driver takes and has to give back by hand (everything
    obtained through devm_* is released by the driver core). *)
Inductive resource :=
| r_gpio (gpio : Z)
| r_backlight (bl : Z)
| r_i2c_adapter (adap : Z)
| r_of_node (node : Z)
| r_panel.

(** One constructor per kernel function the driver calls. *)
Inductive call :=
| c_devm_kzalloc
| c_devm_regulator_get (id : string)
| c_gpio_request (gpio : Z) (label : string)
| c_gpio_direction_output (gpio value : Z)
| c_gpio_set_value (gpio value : Z)
| c_gpio_free (gpio : Z)
| c_of_parse_phandle (name : string)
| c_of_node_put (node : Z)
| c_of_find_backlight_by_node (node : Z)
| c_of_find_i2c_adapter_by_node (node : Z)
| c_put_device (r : resource)
| c_drm_panel_init
| c_drm_panel_add
| c_drm_panel_detach
| c_drm_panel_remove
| c_dev_set_drvdata
| c_dev_err (fmt : string)
| c_regulator_enable (supply : Z)
| c_regulator_disable (supply : Z)
| c_backlight_update_status (bl power : Z)
| c_drm_get_edid (ddc : Z)
| c_drm_mode_connector_update_edid_property (e : option edid)
| c_drm_add_edid_modes (e : edid)
| c_kfree
| c_drm_mode_duplicate (m : drm_display_mode)
| c_drm_mode_set_name (m : drm_display_mode)
| c_drm_mode_probed_add (m : drm_display_mode)
| c_mipi_dsi_dcs_write (cmd : Z) (data : list Z) (len : Z)
| c_msleep (ms : Z)
| c_mipi_dsi_attach
| c_mipi_dsi_detach.

(** What a pointer-returning call gives back: a handle or an ERR_PTR. *)
Inductive ptr_or_err :=
| Ptr (h : Z)
| ErrPtr (err : Z).

(** The return values of the collaborators, as functions of the history of
    calls made so far (the call being answered is its last element). *)
Record env := {
  devm_kzalloc_ret : list call -> bool;
  devm_regulator_get_ret : list call -> ptr_or_err;
  gpio_request_ret : list call -> Z;
  gpio_direction_output_ret : list call -> Z;
  of_find_backlight_by_node_ret : list call -> option Z;
  of_find_i2c_adapter_by_node_ret : list call -> option Z;
  drm_panel_add_ret : list call -> Z;
  regulator_enable_ret : list call -> Z;
  regulator_disable_ret : list call -> Z;
  backlight_update_status_ret : list call -> Z;
  drm_get_edid_ret : list call -> option edid;
  drm_mode_connector_update_edid_property_ret : list call -> Z;
  drm_add_edid_modes_found : list call -> list drm_display_mode;
  drm_mode_duplicate_ret : list call -> bool;
  mipi_dsi_dcs_write_ret : list call -> Z;
  mipi_dsi_attach_ret : list call -> Z;
  mipi_dsi_detach_ret : list call -> Z
}.

(** struct drm_connector: what the driver and the DRM helpers it calls
    change. *)
Record drm_connector := {
  probed_modes : list drm_display_mode;
  edid_blob : option edid;
  width_mm : Z;
  height_mm : Z
}.

(** The state outside struct panel_simple. *)
Record world := {
  calls : list call;
  held : list resource;
  connector : drm_connector;
  props_power : Z -> Z
}.

(** ** A state monad over the world *)

Definition M (A : Type) : Type := world -> A * world.

Definition ret {A} (a : A) : M A := fun w => (a, w).

Definition bind {A B} (m : M A) (k : A -> M B) : M B :=
  fun w => let (a, w') := m w in k a w'.

Declare Scope kernel_scope.
Delimit Scope kernel_scope with kernel.
Notation "x <- m ;; k" := (bind m (fun x => k))
  (at level 61, m at next level, right associativity) : kernel_scope.
Notation "m ;; k" := (bind m (fun _ => k))
  (at level 61, right associativity) : kernel_scope.
Local Open Scope kernel_scope.

Definition emit (c : call) : M unit :=
  fun w => (tt, {| calls := calls w ++ [c]; held := held w;
                   connector := connector w; props_power := props_power w |}).

Definition ask {A} (oracle : list call -> A) : M A :=
  fun w => (oracle (calls w), w).

Definition set_held (f : list resource -> list resource) : M unit :=
  fun w => (tt, {| calls := calls w; held := f (held w);
                   connector := connector w; props_power := props_power w |}).

Definition set_connector (f : drm_connector -> drm_connector) : M unit :=
  fun w => (tt, {| calls := calls w; held := held w;
                   connector := f (connector w);
                   props_power := props_power w |}).

(** [bl->props.power = v] *)
Definition set_props_power (bl v : Z) : M unit :=
  fun w => (tt, {| calls := calls w; held := held w;
                   connector := connector w;
                   props_power :=
                     fun b => if b =? bl then v else props_power w b |}).

Definition get_props_power (bl : Z) : M Z :=
  fun w => (props_power w bl, w).

Definition resource_eqb (a b : resource) : bool :=
  match a, b with
  | r_gpio x, r_gpio y => x =? y
  | r_backlight x, r_backlight y => x =? y
  | r_i2c_adapter x, r_i2c_adapter y => x =? y
  | r_of_node x, r_of_node y => x =? y
  | r_panel, r_panel => true
  | _, _ => false
  end.

(** Dropping one reference: the most recent matching entry goes. *)
Fixpoint drop_ref (r : resource) (l : list resource) : list resource :=
  match l with
  | [] => []
  | x :: l' => if resource_eqb r x then l' else x :: drop_ref r l'
  end.

Definition acquire (r : resource) : M unit := set_held (cons r).
Definition release (r : resource) : M unit := set_held (drop_ref r).

(** ** The kernel functions the driver calls *)

(** The bodies of these functions are elsewhere in the kernel tree.  Each
    one records its call and takes its return value from [env]; where the
    claims need the state a function changes (the reference it takes or
    drops, the connector field it writes), that effect is modelled from the
    specification's description of the collaborator and said so. *)

Section Kernel.
Context {H : kernel_headers}.
Variable e : env.

Definition regulator_enable (s : Z) : M Z :=
  emit (c_regulator_enable s) ;; ask (regulator_enable_ret e).

Definition regulator_disable (s : Z) : M Z :=
  emit (c_regulator_disable s) ;; ask (regulator_disable_ret e).

Definition gpio_set_value (gpio value : Z) : M unit :=
  emit (c_gpio_set_value gpio value).

(** Modelled from the spec: backlight_update_status(bd), the "updateStatus()
    trigger" of a backlight handle "carrying a mutable power field": the
    call pushes the current [props.power]. *)
Definition backlight_update_status (bl : Z) : M Z :=
  v <- get_props_power bl ;;
  emit (c_backlight_update_status bl v) ;;
  ask (backlight_update_status_ret e).

Definition dev_err (fmt : string) : M unit := emit (c_dev_err fmt).

(** ** panel_simple_disable *)

Definition panel_simple_disable (p : panel_simple) : M (Z * panel_simple) :=
  if negb (enabled p) then ret (0, p)
  else
    match backlight p with
    | Some bl =>
        set_props_power bl FB_BLANK_POWERDOWN ;;
        backlight_update_status bl ;;
        ret tt
    | None => ret tt
    end ;;
    (if gpio_is_valid (enable_gpio p) then
       if c_true (Z.land (enable_gpio_flags p) GPIO_ACTIVE_LOW)
       then gpio_set_value (enable_gpio p) 1
       else gpio_set_value (enable_gpio p) 0
     else ret tt) ;;
    regulator_disable (supply p) ;;
    ret (0, set_enabled p false).

(** ** panel_simple_enable *)

Definition panel_simple_enable (p : panel_simple) : M (Z * panel_simple) :=
  if enabled p then ret (0, p)
  else
    err <- regulator_enable (supply p) ;;
    if err <? 0 then
      dev_err "failed to enable supply: %d\n" ;;
      ret (err, p)
    else
      (if gpio_is_valid (enable_gpio p) then
         if c_true (Z.land (enable_gpio_flags p) GPIO_ACTIVE_LOW)
         then gpio_set_value (enable_gpio p) 0
         else gpio_set_value (enable_gpio p) 1
       else ret tt) ;;
      match backlight p with
      | Some bl =>
          set_props_power bl FB_BLANK_UNBLANK ;;
          backlight_update_status bl ;;
          ret tt
      | None => ret tt
      end ;;
      ret (0, set_enabled p true).

(** ** panel_simple_get_fixed_modes *)

(** Modelled from the spec: drm_mode_duplicate(drm, m), the deep copy "into
    connector-owned storage", which can fail per mode: a copy of [m], or
    NULL. *)
Definition drm_mode_duplicate (m : drm_display_mode)
  : M (option drm_display_mode) :=
  emit (c_drm_mode_duplicate m) ;;
  ok <- ask (drm_mode_duplicate_ret e) ;;
  ret (if ok then Some m else None).

Definition drm_mode_set_name (m : drm_display_mode) : M unit :=
  emit (c_drm_mode_set_name m).

(** Modelled from the spec: drm_mode_probed_add(connector, mode) appends
    the mode to the connector's list of probed modes. *)
Definition drm_mode_probed_add (m : drm_display_mode) : M unit :=
  emit (c_drm_mode_probed_add m) ;;
  set_connector (fun c =>
    {| probed_modes := probed_modes c ++ [m]; edid_blob := edid_blob c;
       width_mm := width_mm c; height_mm := height_mm c |}).

(** The body of the [for] loop, over the entries of [desc->modes] that
    remain; [num] is the [unsigned int] counter. *)
Fixpoint fixed_modes_loop (ms : list drm_display_mode) (num : Z) : M Z :=
  match ms with
  | [] => ret num
  | m :: ms' =>
      mode <- drm_mode_duplicate m ;;
      match mode with
      | None =>
          dev_err "failed to add mode %ux%u@%u\n" ;;
          fixed_modes_loop ms' num
      | Some mode =>
          drm_mode_set_name mode ;;
          drm_mode_probed_add mode ;;
          fixed_modes_loop ms' (to_uint (num + 1))
      end
  end.

Definition panel_simple_get_fixed_modes (p : panel_simple) : M Z :=
  match desc p with
  | None => ret 0
  | Some d =>
      num <- fixed_modes_loop (modes d) 0 ;;
      set_connector (fun c =>
        {| probed_modes := probed_modes c; edid_blob := edid_blob c;
           width_mm := width (size d); height_mm := height_mm c |}) ;;
      set_connector (fun c =>
        {| probed_modes := probed_modes c; edid_blob := edid_blob c;
           width_mm := width_mm c; height_mm := height (size d) |}) ;;
      ret (to_int num)
  end.

(** ** panel_simple_get_modes *)

Definition drm_get_edid (bus : Z) : M (option edid) :=
  emit (c_drm_get_edid bus) ;; ask (drm_get_edid_ret e).

(** Modelled from the spec: drm_mode_connector_update_edid_property(
    connector, edid), the "property update" of the EDID reader, replaces
    the connector's EDID blob by its argument, NULL included. *)
Definition drm_mode_connector_update_edid_property (ed : option edid)
  : M Z :=
  emit (c_drm_mode_connector_update_edid_property ed) ;;
  set_connector (fun c =>
    {| probed_modes := probed_modes c; edid_blob := ed;
       width_mm := width_mm c; height_mm := height_mm c |}) ;;
  ask (drm_mode_connector_update_edid_property_ret e).

(** Modelled from the spec: drm_add_edid_modes(connector, edid), the
    "addModes(connector, edidBlob) -> count" of the EDID reader, adds
    the modes it derives from the EDID to the connector's list of probed
    modes and returns how many it added, as an [int]. *)
Definition drm_add_edid_modes (ed : edid) : M Z :=
  emit (c_drm_add_edid_modes ed) ;;
  found <- ask (drm_add_edid_modes_found e) ;;
  set_connector (fun c =>
    {| probed_modes := probed_modes c ++ found; edid_blob := edid_blob c;
       width_mm := width_mm c; height_mm := height_mm c |}) ;;
  ret (to_int (Z.of_nat (List.length found))).

Definition kfree : M unit := emit c_kfree.

Definition panel_simple_get_modes (p : panel_simple) : M Z :=
  let num := 0 in
  num <- match ddc p with
         | Some bus =>
             ed <- drm_get_edid bus ;;
             drm_mode_connector_update_edid_property ed ;;
             match ed with
             | Some blob =>
                 n <- drm_add_edid_modes blob ;;
                 kfree ;;
                 ret (to_int (num + n))
             | None => ret num
             end
         | None => ret num
         end ;;
  n <- panel_simple_get_fixed_modes p ;;
  ret (to_int (num + n)).

(** ** panel_simple_probe *)

Definition devm_kzalloc : M bool :=
  emit c_devm_kzalloc ;; ask (devm_kzalloc_ret e).

Definition devm_regulator_get (id : string) : M ptr_or_err :=
  emit (c_devm_regulator_get id) ;; ask (devm_regulator_get_ret e).

(** Modelled from the spec: gpio_request(gpio, label), gpio_free(gpio),
    of_find_backlight_by_node(), of_find_i2c_adapter_by_node(),
    put_device(), of_node_put(), drm_panel_add() and drm_panel_remove()
    take or drop the reference they are named after; a failed call takes
    nothing. *)
Definition gpio_request (gpio : Z) (label : string) : M Z :=
  emit (c_gpio_request gpio label) ;;
  err <- ask (gpio_request_ret e) ;;
  (if err <? 0 then ret tt else acquire (r_gpio gpio)) ;;
  ret err.

Definition gpio_direction_output (gpio value : Z) : M Z :=
  emit (c_gpio_direction_output gpio value) ;;
  ask (gpio_direction_output_ret e).

Definition gpio_free (gpio : Z) : M unit :=
  emit (c_gpio_free gpio) ;; release (r_gpio gpio).

Definition of_find_backlight_by_node (node : Z) : M (option Z) :=
  emit (c_of_find_backlight_by_node node) ;;
  r <- ask (of_find_backlight_by_node_ret e) ;;
  match r with
  | Some bl => acquire (r_backlight bl)
  | None => ret tt
  end ;;
  ret r.

Definition of_find_i2c_adapter_by_node (node : Z) : M (option Z) :=
  emit (c_of_find_i2c_adapter_by_node node) ;;
  r <- ask (of_find_i2c_adapter_by_node_ret e) ;;
  match r with
  | Some adap => acquire (r_i2c_adapter adap)
  | None => ret tt
  end ;;
  ret r.

Definition of_node_put (node : Z) : M unit :=
  emit (c_of_node_put node) ;; release (r_of_node node).

Definition put_device (r : resource) : M unit :=
  emit (c_put_device r) ;; release r.

Definition drm_panel_init : M unit := emit c_drm_panel_init.

Definition drm_panel_add : M Z :=
  emit c_drm_panel_add ;;
  err <- ask (drm_panel_add_ret e) ;;
  (if err <? 0 then ret tt else acquire r_panel) ;;
  ret err.

Definition drm_panel_detach : M unit := emit c_drm_panel_detach.

Definition drm_panel_remove : M unit :=
  emit c_drm_panel_remove ;; release r_panel.

Definition dev_set_drvdata : M unit := emit c_dev_set_drvdata.

End Kernel.

(** The device-tree node of the panel: the properties the probe reads.
    [enable_gpios] is what of_get_named_gpio_flags() returns for
    "enable-gpios" (a GPIO number or a negative errno) and
    [enable_gpios_flags] what it stores in [flags]. *)
Record device_node := {
  compatible : string;
  enable_gpios : Z;
  enable_gpios_flags : Z;
  backlight_phandle : option Z;
  ddc_i2c_bus : option Z
}.

(** Modelled from the spec: of_get_named_gpio_flags(np, "enable-gpios", 0,
    &flags) reads the optional enable GPIO "with active-level flag" of the
    binding. *)
Definition of_get_named_gpio_flags (np : device_node) : Z * Z :=
  (enable_gpios np, enable_gpios_flags np).

(** Modelled from the spec: of_parse_phandle(np, name, 0) returns the node
    the property refers to, with its reference count raised. *)
Definition of_parse_phandle (np : device_node) (name : string)
  : M (option Z) :=
  emit (c_of_parse_phandle name) ;;
  let r := if String.eqb name "backlight" then backlight_phandle np
           else if String.eqb name "ddc-i2c-bus" then ddc_i2c_bus np
           else None in
  match r with
  | Some n => acquire (r_of_node n)
  | None => ret tt
  end ;;
  ret r.

Definition set_supply (p : panel_simple) (s : Z) : panel_simple :=
  {| enabled := enabled p; desc := desc p; backlight := backlight p;
     supply := s; ddc := ddc p;
     enable_gpio_flags := enable_gpio_flags p; enable_gpio := enable_gpio p |}.

Definition set_enable_gpio (p : panel_simple) (g : Z) : panel_simple :=
  {| enabled := enabled p; desc := desc p; backlight := backlight p;
     supply := supply p; ddc := ddc p;
     enable_gpio_flags := enable_gpio_flags p; enable_gpio := g |}.

Definition set_enable_gpio_flags (p : panel_simple) (f : Z) : panel_simple :=
  {| enabled := enabled p; desc := desc p; backlight := backlight p;
     supply := supply p; ddc := ddc p;
     enable_gpio_flags := f; enable_gpio := enable_gpio p |}.

Definition set_backlight (p : panel_simple) (b : option Z) : panel_simple :=
  {| enabled := enabled p; desc := desc p; backlight := b;
     supply := supply p; ddc := ddc p;
     enable_gpio_flags := enable_gpio_flags p; enable_gpio := enable_gpio p |}.

Definition set_ddc (p : panel_simple) (d : option Z) : panel_simple :=
  {| enabled := enabled p; desc := desc p; backlight := backlight p;
     supply := supply p; ddc := d;
     enable_gpio_flags := enable_gpio_flags p; enable_gpio := enable_gpio p |}.

(** What devm_kzalloc() hands out: all fields zero. *)
Definition kzalloc_panel : panel_simple :=
  {| enabled := false; desc := None; backlight := None; supply := 0;
     ddc := None; enable_gpio_flags := 0; enable_gpio := 0 |}.

Definition set_desc (p : panel_simple) (d : option panel_desc) : panel_simple :=
  {| enabled := enabled p; desc := d; backlight := backlight p;
     supply := supply p; ddc := ddc p;
     enable_gpio_flags := enable_gpio_flags p; enable_gpio := enable_gpio p |}.

Section Probe.
Context {H : kernel_headers}.
Variable e : env.

(** The probe is written from its last stage to its first, so that every
    [goto] and every fall-through is a call to something already
    defined.  A stage returns [err] and, on success, the panel. *)

(** free_gpio: *)
Definition free_gpio (panel : panel_simple) (err : Z)
  : M (Z * option panel_simple) :=
  (if gpio_is_valid (enable_gpio panel)
   then gpio_free (enable_gpio panel) else ret tt) ;;
  ret (err, None).

(** free_backlight: falls through to free_gpio. *)
Definition free_backlight (panel : panel_simple) (err : Z)
  : M (Z * option panel_simple) :=
  match backlight panel with
  | Some bl => put_device (r_backlight bl)
  | None => ret tt
  end ;;
  free_gpio panel err.

(** free_ddc: falls through to free_backlight. *)
Definition free_ddc (panel : panel_simple) (err : Z)
  : M (Z * option panel_simple) :=
  match ddc panel with
  | Some adap => put_device (r_i2c_adapter adap)
  | None => ret tt
  end ;;
  free_backlight panel err.

(** drm_panel_init() ... return 0; *)
Definition probe_register (panel : panel_simple)
  : M (Z * option panel_simple) :=
  drm_panel_init ;;
  err <- drm_panel_add e ;;
  if err <? 0 then free_ddc panel err
  else
    dev_set_drvdata ;;
    ret (0, Some panel).

(** ddc = of_parse_phandle(dev->of_node, "ddc-i2c-bus", 0); ... *)
Definition probe_ddc (np : device_node) (panel : panel_simple)
  : M (Z * option panel_simple) :=
  ddc_node <- of_parse_phandle np "ddc-i2c-bus" ;;
  match ddc_node with
  | Some n =>
      adap <- of_find_i2c_adapter_by_node e n ;;
      let panel := set_ddc panel adap in
      of_node_put n ;;
      match adap with
      | None => free_backlight panel (- EPROBE_DEFER)
      | Some _ => probe_register panel
      end
  | None => probe_register panel
  end.

(** backlight = of_parse_phandle(dev->of_node, "backlight", 0); ... *)
Definition probe_backlight (np : device_node) (panel : panel_simple)
  : M (Z * option panel_simple) :=
  bl_node <- of_parse_phandle np "backlight" ;;
  match bl_node with
  | Some n =>
      bl <- of_find_backlight_by_node e n ;;
      let panel := set_backlight panel bl in
      of_node_put n ;;
      match bl with
      | None => free_gpio panel (- EPROBE_DEFER)
      | Some _ => probe_ddc np panel
      end
  | None => probe_ddc np panel
  end.

(** panel->enable_gpio = of_get_named_gpio_flags(...); ... *)
Definition probe_gpio (np : device_node) (panel : panel_simple)
  : M (Z * option panel_simple) :=
  let (gpio, flags) := of_get_named_gpio_flags np in
  let panel := set_enable_gpio panel gpio in
  if gpio_is_valid (enable_gpio panel) then
    let panel :=
      if c_true (Z.land flags OF_GPIO_ACTIVE_LOW)
      then set_enable_gpio_flags panel
             (Z.lor (enable_gpio_flags panel) GPIO_ACTIVE_LOW)
      else panel in
    err <- gpio_request e (enable_gpio panel) "enable" ;;
    if err <? 0 then
      dev_err "failed to request GPIO#%u: %d\n" ;;
      ret (err, None)
    else
      let value :=
        if c_true (Z.land (enable_gpio_flags panel) GPIO_ACTIVE_LOW)
        then 1 else 0 in
      err <- gpio_direction_output e (enable_gpio panel) value ;;
      if err <? 0 then
        dev_err "failed to setup GPIO%u: %d\n" ;;
        free_gpio panel err
      else probe_backlight np panel
  else probe_backlight np panel.

Definition panel_simple_probe (np : device_node) (d : option panel_desc)
  : M (Z * option panel_simple) :=
  ok <- devm_kzalloc e ;;
  if negb ok then ret (- ENOMEM, None)
  else
    let panel := set_desc kzalloc_panel d in
    s <- devm_regulator_get e "power" ;;
    match s with
    | ErrPtr err => ret (err, None)
    | Ptr h => probe_gpio np (set_supply panel h)
    end.

(** ** panel_simple_remove, panel_simple_shutdown *)

(** [panel] is what dev_get_drvdata() returns. *)
Definition panel_simple_remove (panel : panel_simple)
  : M (Z * panel_simple) :=
  drm_panel_detach ;;
  drm_panel_remove ;;
  r <- panel_simple_disable e panel ;;
  let panel := snd r in
  match ddc panel with
  | Some adap => put_device (r_i2c_adapter adap)
  | None => ret tt
  end ;;
  match backlight panel with
  | Some bl => put_device (r_backlight bl)
  | None => ret tt
  end ;;
  (if gpio_is_valid (enable_gpio panel)
   then gpio_free (enable_gpio panel) else ret tt) ;;
  ret (0, panel).

Definition panel_simple_shutdown (panel : panel_simple) : M panel_simple :=
  r <- panel_simple_disable e panel ;;
  ret (snd r).

End Probe.

(** ** DSI panels *)

(** struct panel_desc_dsi *)
Record panel_desc_dsi := {
  dsi_desc : panel_desc;
  dsi_flags : Z;
  dsi_format : mipi_dsi_pixel_format;
  dsi_lanes : Z
}.

(** struct mipi_dsi_device: its device-tree node and the link parameters
    the probe fills in. *)
Record mipi_dsi_device := {
  of_node : device_node;
  mode_flags : Z;
  format : mipi_dsi_pixel_format;
  lanes : Z
}.

Definition sc20_ili9881c_mode : drm_display_mode :=
  {| clock := 714778;
     hdisplay := 720;
     hsync_start := 720 + 52;
     hsync_end := 720 + 52 + 36;
     htotal := 720 + 52 + 36 + 100;
     vdisplay := 1280;
     vsync_start := 1280 + 8;
     vsync_end := 1280 + 8 + 4;
     vtotal := 1280 + 8 + 4 + 20;
     vrefresh := 60 |}.

Definition lg_lh500wx1_sd03_mode : drm_display_mode :=
  {| clock := 67000;
     hdisplay := 720;
     hsync_start := 720 + 12;
     hsync_end := 720 + 12 + 4;
     htotal := 720 + 12 + 4 + 112;
     vdisplay := 1280;
     vsync_start := 1280 + 8;
     vsync_end := 1280 + 8 + 4;
     vtotal := 1280 + 8 + 4 + 12;
     vrefresh := 60 |}.

Definition panasonic_vvx10f004b00_mode : drm_display_mode :=
  {| clock := 157200;
     hdisplay := 1920;
     hsync_start := 1920 + 154;
     hsync_end := 1920 + 154 + 16;
     htotal := 1920 + 154 + 16 + 32;
     vdisplay := 1200;
     vsync_start := 1200 + 17;
     vsync_end := 1200 + 17 + 2;
     vtotal := 1200 + 17 + 2 + 16;
     vrefresh := 60 |}.

(** The command list of the DSI probe ("Display on-command sc20,ili9881c"),
    one entry per [ret = mipi_dsi_dcs_write(dsi, cmd, (u8[]){ data }, len)]
    statement, in source order: the statements before [msleep(1)] and the
    three after it. *)
Definition ili9881c_on_cmds : list (Z * list Z * Z) :=
  [
    (0xff, [0x98; 0x81; 0x03], 1); (0x01, [0x00], 1); (0x02, [0x00], 1);
    (0x03, [0x73], 1); (0x04, [0x03], 1); (0x05, [0x00], 1);
    (0x06, [0x06], 1); (0x07, [0x06], 1); (0x08, [0x00], 1);
    (0x09, [0x18], 1); (0x0a, [0x04], 1); (0x0b, [0x00], 1);
    (0x0c, [0x02], 1); (0x0d, [0x03], 1); (0x0e, [0x00], 1);
    (0x0f, [0x25], 1); (0x10, [0x25], 1); (0x11, [0x00], 1);
    (0x12, [0x00], 1); (0x13, [0x00], 1); (0x14, [0x00], 1);
    (0x15, [0x00], 1); (0x16, [0x0c], 1); (0x17, [0x00], 1);
    (0x18, [0x00], 1); (0x19, [0x00], 1); (0x1a, [0x00], 1);
    (0x1b, [0x00], 1); (0x1c, [0x00], 1); (0x1d, [0x00], 1);
    (0x1e, [0xc0], 1); (0x1f, [0x80], 1); (0x20, [0x04], 1);
    (0x21, [0x01], 1); (0x22, [0x00], 1); (0x23, [0x00], 1);
    (0x24, [0x00], 1); (0x25, [0x00], 1); (0x26, [0x00], 1);
    (0x27, [0x00], 1); (0x28, [0x33], 1); (0x29, [0x03], 1);
    (0x2a, [0x00], 1); (0x2b, [0x00], 1); (0x2c, [0x00], 1);
    (0x2d, [0x00], 1); (0x2e, [0x00], 1); (0x2f, [0x00], 1);
    (0x30, [0x00], 1); (0x31, [0x00], 1); (0x32, [0x00], 1);
    (0x33, [0x00], 1); (0x34, [0x04], 1); (0x35, [0x00], 1);
    (0x36, [0x00], 1); (0x37, [0x00], 1); (0x38, [0x3c], 1);
    (0x39, [0x00], 1); (0x3a, [0x00], 1); (0x3b, [0x00], 1);
    (0x3c, [0x00], 1); (0x3d, [0x00], 1); (0x3e, [0x00], 1);
    (0x3f, [0x00], 1); (0x40, [0x00], 1); (0x41, [0x00], 1);
    (0x42, [0x00], 1); (0x43, [0x00], 1); (0x44, [0x00], 1);
    (0x50, [0x01], 1); (0x51, [0x23], 1); (0x52, [0x45], 1);
    (0x53, [0x67], 1); (0x54, [0x89], 1); (0x55, [0xab], 1);
    (0x56, [0x01], 1); (0x57, [0x23], 1); (0x58, [0x45], 1);
    (0x59, [0x67], 1); (0x5a, [0x89], 1); (0x5b, [0xab], 1);
    (0x5c, [0xcd], 1); (0x5d, [0xef], 1); (0x5e, [0x11], 1);
    (0x5f, [0x02], 1); (0x60, [0x02], 1); (0x61, [0x02], 1);
    (0x62, [0x02], 1); (0x63, [0x02], 1); (0x64, [0x02], 1);
    (0x65, [0x02], 1); (0x66, [0x02], 1); (0x67, [0x02], 1);
    (0x68, [0x02], 1); (0x69, [0x02], 1); (0x6a, [0x0c], 1);
    (0x6b, [0x02], 1); (0x6c, [0x0f], 1); (0x6d, [0x0e], 1);
    (0x6e, [0x0d], 1); (0x6f, [0x06], 1); (0x70, [0x07], 1);
    (0x71, [0x02], 1); (0x72, [0x02], 1); (0x73, [0x02], 1);
    (0x74, [0x02], 1); (0x75, [0x02], 1); (0x76, [0x02], 1);
    (0x77, [0x02], 1); (0x78, [0x02], 1); (0x79, [0x02], 1);
    (0x7a, [0x02], 1); (0x7b, [0x02], 1); (0x7c, [0x02], 1);
    (0x7d, [0x02], 1); (0x7e, [0x02], 1); (0x7f, [0x02], 1);
    (0x80, [0x0c], 1); (0x81, [0x02], 1); (0x82, [0x0f], 1);
    (0x83, [0x0e], 1); (0x84, [0x0d], 1); (0x85, [0x06], 1);
    (0x86, [0x07], 1); (0x87, [0x02], 1); (0x88, [0x02], 1);
    (0x89, [0x02], 1); (0x8a, [0x02], 1); (0xff, [0x98; 0x81; 0x04], 1);
    (0x6c, [0x15], 1); (0x6e, [0x22], 1); (0x6f, [0x33], 1);
    (0x3a, [0xa4], 1); (0x8d, [0x0d], 1); (0x87, [0xba], 1);
    (0x26, [0x76], 1); (0xb2, [0xd1], 1); (0xff, [0x98; 0x81; 0x01], 1);
    (0x22, [0x0a], 1); (0x53, [0xbe], 1); (0x55, [0xa7], 1);
    (0x50, [0x74], 1); (0x51, [0x74], 1); (0x31, [0x02], 1);
    (0x60, [0x14], 1); (0xa0, [0x15], 1); (0xa1, [0x26], 1);
    (0xa2, [0x2b], 1); (0xa3, [0x14], 1); (0xa4, [0x17], 1);
    (0xa5, [0x2c], 1); (0xa6, [0x20], 1); (0xa7, [0x21], 1);
    (0xa8, [0x95], 1); (0xa9, [0x1d], 1); (0xaa, [0x27], 1);
    (0xab, [0x89], 1); (0xac, [0x1a], 1); (0xad, [0x18], 1);
    (0xae, [0x4b], 1); (0xaf, [0x21], 1); (0xb0, [0x26], 1);
    (0xb1, [0x60], 1); (0xb2, [0x71], 1); (0xb3, [0x3f], 1);
    (0xc0, [0x05], 1); (0xc1, [0x26], 1); (0xc2, [0x3f], 1);
    (0xc3, [0x0f], 1); (0xc4, [0x14], 1); (0xc5, [0x27], 1);
    (0xc6, [0x1a], 1); (0xc7, [0x1e], 1); (0xc8, [0x9e], 1);
    (0xc9, [0x1a], 1); (0xca, [0x29], 1); (0xcb, [0x82], 1);
    (0xcc, [0x18], 1); (0xcd, [0x16], 1); (0xce, [0x4c], 1);
    (0xcf, [0x1f], 1); (0xd0, [0x28], 1); (0xd1, [0x53], 1);
    (0xd2, [0x62], 1); (0xd3, [0x3f], 1); (0xff, [0x98; 0x81; 0x00], 1)
  ].

Definition ili9881c_display_on : list (Z * list Z * Z) :=
  [
    (0x11, [0x00], 1); (0x29, [0x00], 1); (0x35, [0x00], 1)
  ].

Section Dsi.
Context {H : kernel_headers}.

Definition sc20_ili9881c : panel_desc_dsi :=
  {| dsi_desc := {| modes := [sc20_ili9881c_mode];
                    size := {| width := 59; height := 104 |} |};
     dsi_flags := Z.lor (Z.lor MIPI_DSI_MODE_VIDEO MIPI_DSI_MODE_VIDEO_HSE)
                        MIPI_DSI_CLOCK_NON_CONTINUOUS;
     dsi_format := MIPI_DSI_FMT_RGB888;
     dsi_lanes := 4 |}.

Definition lg_lh500wx1_sd03 : panel_desc_dsi :=
  {| dsi_desc := {| modes := [lg_lh500wx1_sd03_mode];
                    size := {| width := 62; height := 110 |} |};
     dsi_flags := MIPI_DSI_MODE_VIDEO;
     dsi_format := MIPI_DSI_FMT_RGB888;
     dsi_lanes := 4 |}.

Definition panasonic_vvx10f004b00 : panel_desc_dsi :=
  {| dsi_desc := {| modes := [panasonic_vvx10f004b00_mode];
                    size := {| width := 217; height := 136 |} |};
     dsi_flags := Z.lor MIPI_DSI_MODE_VIDEO MIPI_DSI_MODE_VIDEO_SYNC_PULSE;
     dsi_format := MIPI_DSI_FMT_RGB888;
     dsi_lanes := 4 |}.

Definition dsi_of_match : list (string * panel_desc_dsi) :=
  [ ("sc20,ili9881c", sc20_ili9881c);
    ("lg,lh500wx1-sd03", lg_lh500wx1_sd03);
    ("panasonic,vvx10f004b00", panasonic_vvx10f004b00) ].

(** Modelled from the spec: of_match_node(table, np), the registry's
    "lookup(compatibilityId)": the first entry whose compatible string is
    the node's. *)
Fixpoint of_match_node (table : list (string * panel_desc_dsi))
    (np : device_node) : option panel_desc_dsi :=
  match table with
  | [] => None
  | (c, d) :: table' =>
      if String.eqb c (compatible np) then Some d
      else of_match_node table' np
  end.

Variable e : env.

Definition mipi_dsi_dcs_write (cmd : Z) (data : list Z) (len : Z) : M Z :=
  emit (c_mipi_dsi_dcs_write cmd data len) ;;
  ask (mipi_dsi_dcs_write_ret e).

Definition msleep (ms : Z) : M unit := emit (c_msleep ms).

Definition mipi_dsi_attach : M Z :=
  emit c_mipi_dsi_attach ;; ask (mipi_dsi_attach_ret e).


(** A run of [ret = mipi_dsi_dcs_write(...)] statements: each one
    overwrites [ret], none reads it. *)
Fixpoint dcs_writes (cmds : list (Z * list Z * Z)) (ret0 : Z) : M Z :=
  match cmds with
  | [] => ret ret0
  | (cmd, data, len) :: cmds' =>
      r <- mipi_dsi_dcs_write cmd data len ;;
      dcs_writes cmds' r
  end.

Definition panel_simple_dsi_probe (dsi : mipi_dsi_device)
  : M (Z * mipi_dsi_device * option panel_simple) :=
  match of_match_node dsi_of_match (of_node dsi) with
  | None => ret (- ENODEV, dsi, None)
  | Some d =>
      r <- panel_simple_probe e (of_node dsi) (Some (dsi_desc d)) ;;
      let (err, panel) := r in
      if err <? 0 then ret (err, dsi, None)
      else
        let dsi := {| of_node := of_node dsi; mode_flags := dsi_flags d;
                      format := format dsi; lanes := lanes dsi |} in
        r <- dcs_writes ili9881c_on_cmds 0 ;;
        msleep 1 ;;
        dcs_writes ili9881c_display_on r ;;
        let dsi := {| of_node := of_node dsi; mode_flags := mode_flags dsi;
                      format := dsi_format d; lanes := dsi_lanes d |} in
        err <- mipi_dsi_attach ;;
        ret (err, dsi, panel)
  end.


Definition panel_simple_dsi_shutdown (panel : panel_simple)
  : M panel_simple :=
  panel_simple_shutdown e panel.

End Dsi.

(** ** What enable and disable are expected to emit *)

Section Sequences.
Context {H : kernel_headers}.

(** The polarity test of both functions. *)
Definition active_low (p : panel_simple) : bool :=
  c_true (Z.land (enable_gpio_flags p) GPIO_ACTIVE_LOW).

Definition gpio_calls (p : panel_simple) (value : Z) : list call :=
  if gpio_is_valid (enable_gpio p)
  then [c_gpio_set_value (enable_gpio p) value] else [].

Definition backlight_calls (p : panel_simple) (power : Z) : list call :=
  match backlight p with
  | Some bl => [c_backlight_update_status bl power]
  | None => []
  end.

(** The calls of an enable that finds the panel disabled and the supply
    willing. *)
Definition enable_calls (p : panel_simple) : list call :=
  [c_regulator_enable (supply p)]
  ++ gpio_calls p (if active_low p then 0 else 1)
  ++ backlight_calls p FB_BLANK_UNBLANK.

(** The calls of a disable that finds the panel enabled. *)
Definition disable_calls (p : panel_simple) : list call :=
  backlight_calls p FB_BLANK_POWERDOWN
  ++ gpio_calls p (if active_low p then 1 else 0)
  ++ [c_regulator_disable (supply p)].

(** The call that takes back what a power-up call did. *)
Definition undo (c : call) : call :=
  match c with
  | c_regulator_enable s => c_regulator_disable s
  | c_gpio_set_value g v => c_gpio_set_value g (if v =? 0 then 1 else 0)
  | c_backlight_update_status bl _ =>
      c_backlight_update_status bl FB_BLANK_POWERDOWN
  | c => c
  end.

(** The calls of the DSI probe between the end of panel_simple_probe and
    its return. *)
Definition dcs_call (s : Z * list Z * Z) : call :=
  let '(cmd, data, len) := s in c_mipi_dsi_dcs_write cmd data len.

Definition init_script_calls : list call :=
  map dcs_call ili9881c_on_cmds ++ [c_msleep 1]
  ++ map dcs_call ili9881c_display_on.

End Sequences.

Definition is_dcs_write (c : call) : bool :=
  match c with
  | c_mipi_dsi_dcs_write _ _ _ => true
  | _ => false
  end.

(** The writes of GPIO lines in a history, as (line, level) pairs. *)
Fixpoint gpio_writes (l : list call) : list (Z * Z) :=
  match l with
  | [] => []
  | c_gpio_set_value g v :: l' => (g, v) :: gpio_writes l'
  | _ :: l' => gpio_writes l'
  end.

(** The order the specification prescribes for the calls of an enable:
    regulator, then enable GPIO, then a DCS write, then backlight. *)
Definition spec_enable_order (l : list call) : Prop :=
  exists s g v cmd data len bl pw l0 l1 l2 l3 l4,
    l = l0 ++ c_regulator_enable s :: l1 ++ c_gpio_set_value g v :: l2
           ++ c_mipi_dsi_dcs_write cmd data len :: l3
           ++ c_backlight_update_status bl pw :: l4.

(** ** Reading a call history *)

(** Calls that touch a GPIO line or a backlight. *)
Definition is_gpio_or_backlight (c : call) : bool :=
  match c with
  | c_gpio_request _ _ | c_gpio_direction_output _ _ | c_gpio_set_value _ _
  | c_gpio_free _ | c_backlight_update_status _ _
  | c_of_find_backlight_by_node _ | c_put_device (r_backlight _) => true
  | _ => false
  end.

(** Calls of the EDID path. *)
Definition is_edid_call (c : call) : bool :=
  match c with
  | c_drm_get_edid _ | c_drm_mode_connector_update_edid_property _
  | c_drm_add_edid_modes _ => true
  | _ => false
  end.

Definition is_dev_err (c : call) : bool :=
  match c with
  | c_dev_err _ => true
  | _ => false
  end.

(** The modes handed to drm_mode_duplicate() and to drm_mode_probed_add()
    in a history. *)
Fixpoint modes_duplicated (l : list call) : list drm_display_mode :=
  match l with
  | [] => []
  | c_drm_mode_duplicate m :: l' => m :: modes_duplicated l'
  | _ :: l' => modes_duplicated l'
  end.

Fixpoint modes_added (l : list call) : list drm_display_mode :=
  match l with
  | [] => []
  | c_drm_mode_probed_add m :: l' => m :: modes_added l'
  | _ :: l' => modes_added l'
  end.

(** Calls that give a reference back. *)
Definition is_release (c : call) : bool :=
  match c with
  | c_gpio_free _ | c_put_device _ | c_drm_panel_remove => true
  | _ => false
  end.

(** [e] with another answer to mipi_dsi_dcs_write(). *)
Definition with_dcs_write_ret (f : list call -> Z) (e : env) : env :=
  {| devm_kzalloc_ret := devm_kzalloc_ret e;
     devm_regulator_get_ret := devm_regulator_get_ret e;
     gpio_request_ret := gpio_request_ret e;
     gpio_direction_output_ret := gpio_direction_output_ret e;
     of_find_backlight_by_node_ret := of_find_backlight_by_node_ret e;
     of_find_i2c_adapter_by_node_ret := of_find_i2c_adapter_by_node_ret e;
     drm_panel_add_ret := drm_panel_add_ret e;
     regulator_enable_ret := regulator_enable_ret e;
     regulator_disable_ret := regulator_disable_ret e;
     backlight_update_status_ret := backlight_update_status_ret e;
     drm_get_edid_ret := drm_get_edid_ret e;
     drm_mode_connector_update_edid_property_ret :=
       drm_mode_connector_update_edid_property_ret e;
     drm_add_edid_modes_found := drm_add_edid_modes_found e;
     drm_mode_duplicate_ret := drm_mode_duplicate_ret e;
     mipi_dsi_dcs_write_ret := f;
     mipi_dsi_attach_ret := mipi_dsi_attach_ret e;
     mipi_dsi_detach_ret := mipi_dsi_detach_ret e |}.

(** ** Effects of the mode provider and of the probe *)

(** What a bound panel holds. *)
Definition panel_refs {H : kernel_headers} (p : panel_simple)
  : list resource :=
  [r_panel]
  ++ match ddc p with Some adap => [r_i2c_adapter adap] | None => [] end
  ++ match backlight p with Some bl => [r_backlight bl] | None => [] end
  ++ (if gpio_is_valid (enable_gpio p) then [r_gpio (enable_gpio p)] else []).

Section Effects.
Context {H : kernel_headers}.
Variable e : env.

(** What one run of the loop over the descriptor's modes does. *)
Record loop_effect (ms : list drm_display_mode) (num : Z) (w : world)
    (n : Z) (w' : world) (new : list call)
    (copied : list drm_display_mode) : Prop := {
  le_calls : calls w' = calls w ++ new;
  le_held : held w' = held w;
  le_power : props_power w' = props_power w;
  le_edid : edid_blob (connector w') = edid_blob (connector w);
  le_width : width_mm (connector w') = width_mm (connector w);
  le_height : height_mm (connector w') = height_mm (connector w);
  le_probed :
    probed_modes (connector w') = probed_modes (connector w) ++ copied;
  le_no_edid : filter is_edid_call new = [];
  le_added : modes_added new = copied;
  le_tried : modes_duplicated new = ms;
  le_logged :
    (List.length (filter is_dev_err new) + List.length copied
     = List.length ms)%nat;
  le_num : to_uint n = to_uint (num + Z.of_nat (List.length copied));
  le_num0 : copied = [] -> n = num;
  le_range : 0 <= num < 2 ^ 32 -> 0 <= n < 2 ^ 32;
  le_all_ok :
    (forall h, drm_mode_duplicate_ret e h = true) -> copied = ms;
  le_none_ok :
    (forall h, drm_mode_duplicate_ret e h = false) -> copied = []
}.

(** The calls of the EDID part of get_modes, and the count it adds. *)
Definition edid_calls (p : panel_simple) (w : world) : list call :=
  match ddc p with
  | Some bus =>
      let ed := drm_get_edid_ret e (calls w ++ [c_drm_get_edid bus]) in
      [c_drm_get_edid bus; c_drm_mode_connector_update_edid_property ed]
      ++ match ed with
         | Some blob => [c_drm_add_edid_modes blob; c_kfree]
         | None => []
         end
  | None => []
  end.

(** The modes drm_add_edid_modes() derives from the EDID in get_modes,
    none when it is not called, and the count it returns. *)
Definition edid_modes (p : panel_simple) (w : world)
  : list drm_display_mode :=
  match ddc p with
  | Some bus =>
      match drm_get_edid_ret e (calls w ++ [c_drm_get_edid bus]) with
      | Some blob =>
          drm_add_edid_modes_found e
            (calls w ++ [c_drm_get_edid bus;
                         c_drm_mode_connector_update_edid_property
                           (Some blob);
                         c_drm_add_edid_modes blob])
      | None => []
      end
  | None => []
  end.

Definition edid_modes_added (p : panel_simple) (w : world) : Z :=
  to_int (Z.of_nat (List.length (edid_modes p w))).

(** The descriptor modes whose duplication succeeded: [ms] filtered by the
    answers [oks], one per mode. *)
Definition kept (ms : list drm_display_mode) (oks : list bool)
  : list drm_display_mode :=
  map fst (filter snd (combine ms oks)).

(** The answers drm_mode_duplicate() gives to the loop over [ms] that
    starts with history [h]: each mode is asked about after the calls made
    for the modes before it (name and add after a success, the log message
    after a failure). *)
Fixpoint duplicate_answers (h : list call) (ms : list drm_display_mode)
  : list bool :=
  match ms with
  | [] => []
  | m :: ms' =>
      let ok := drm_mode_duplicate_ret e (h ++ [c_drm_mode_duplicate m]) in
      ok :: duplicate_answers
              (h ++ c_drm_mode_duplicate m
                 :: (if ok
                     then [c_drm_mode_set_name m; c_drm_mode_probed_add m]
                     else [c_dev_err "failed to add mode %ux%u@%u\n"]))
              ms'
  end.

(** The unwinding labels release the DDC adapter, then the backlight,
    then the GPIO: the reverse of the order in which the probe took
    them. *)
Definition release_calls (p : panel_simple) : list call :=
  match ddc p with
  | Some adap => [c_put_device (r_i2c_adapter adap)]
  | None => []
  end
  ++ match backlight p with
     | Some bl => [c_put_device (r_backlight bl)]
     | None => []
     end
  ++ (if gpio_is_valid (enable_gpio p)
      then [c_gpio_free (enable_gpio p)] else []).

(** The answer to the first of_find_backlight_by_node() call of [new], made
    after history [h]: [None] if there is no such call, [Some None] if the
    call found no device. *)
Fixpoint backlight_lookup (h new : list call) : option (option Z) :=
  match new with
  | [] => None
  | c_of_find_backlight_by_node n :: _ =>
      Some (of_find_backlight_by_node_ret e
              (h ++ [c_of_find_backlight_by_node n]))
  | c :: new' => backlight_lookup (h ++ [c]) new'
  end.

(** The same for of_find_i2c_adapter_by_node(). *)
Fixpoint adapter_lookup (h new : list call) : option (option Z) :=
  match new with
  | [] => None
  | c_of_find_i2c_adapter_by_node n :: _ =>
      Some (of_find_i2c_adapter_by_node_ret e
              (h ++ [c_of_find_i2c_adapter_by_node n]))
  | c :: new' => adapter_lookup (h ++ [c]) new'
  end.

End Effects.

(** ** Call sequences of the display pipeline *)

(** The panel function set (struct drm_panel_funcs). *)
Inductive panel_func := f_disable | f_enable | f_get_modes.

Section Pipeline.
Context {H : kernel_headers}.
Variable e : env.

Definition call_func (f : panel_func) (p : panel_simple)
  : M (Z * panel_simple) :=
  match f with
  | f_disable => panel_simple_disable e p
  | f_enable => panel_simple_enable e p
  | f_get_modes => n <- panel_simple_get_modes e p ;; ret (n, p)
  end.

(** The pipeline calling the functions one after the other, whatever they
    return. *)
Fixpoint call_funcs (fs : list panel_func) (p : panel_simple)
  : M panel_simple :=
  match fs with
  | [] => ret p
  | f :: fs' => r <- call_func f p ;; call_funcs fs' (snd r)
  end.

End Pipeline.

(** ** Concrete instances *)

(** Header values of a mainline kernel of the driver's time. *)
Definition linux_headers : kernel_headers :=
  {| gpio_is_valid := fun n => (0 <=? n) && (n <? 256);
     OF_GPIO_ACTIVE_LOW := 1;
     FB_BLANK_UNBLANK := 0;
     FB_BLANK_POWERDOWN := 4;
     ENOMEM := 12;
     ENODEV := 19;
     EPROBE_DEFER := 517;
     MIPI_DSI_MODE_VIDEO := 1;
     MIPI_DSI_MODE_VIDEO_SYNC_PULSE := 4;
     MIPI_DSI_MODE_VIDEO_HSE := 16;
     MIPI_DSI_CLOCK_NON_CONTINUOUS := 1024 |}.

(** Collaborators that never fail: regulator handle 1, backlight 3, DDC
    adapter 7, no EDID on the bus. *)
Definition env_ok : env :=
  {| devm_kzalloc_ret := fun _ => true;
     devm_regulator_get_ret := fun _ => Ptr 1;
     gpio_request_ret := fun _ => 0;
     gpio_direction_output_ret := fun _ => 0;
     of_find_backlight_by_node_ret := fun _ => Some 3;
     of_find_i2c_adapter_by_node_ret := fun _ => Some 7;
     drm_panel_add_ret := fun _ => 0;
     regulator_enable_ret := fun _ => 0;
     regulator_disable_ret := fun _ => 0;
     backlight_update_status_ret := fun _ => 0;
     drm_get_edid_ret := fun _ => None;
     drm_mode_connector_update_edid_property_ret := fun _ => 0;
     drm_add_edid_modes_found := fun _ => [];
     drm_mode_duplicate_ret := fun _ => true;
     mipi_dsi_dcs_write_ret := fun _ => 0;
     mipi_dsi_attach_ret := fun _ => 0;
     mipi_dsi_detach_ret := fun _ => 0 |}.

Definition world0 : world :=
  {| calls := []; held := [];
     connector := {| probed_modes := []; edid_blob := None;
                     width_mm := 0; height_mm := 0 |};
     props_power := fun _ => 0 |}.

(** A disabled sc20 panel: supply 1, enable GPIO 12 (active high),
    backlight 3, no DDC bus. *)
Definition sc20_panel : panel_simple :=
  {| enabled := false;
     desc := Some (dsi_desc (@sc20_ili9881c linux_headers));
     backlight := Some 3; supply := 1; ddc := None;
     enable_gpio_flags := 0; enable_gpio := 12 |}.

(** The collaborators of [env_ok], except that the supply cannot be
    switched on (-EIO). *)
Definition env_supply_fails : env :=
  {| devm_kzalloc_ret := devm_kzalloc_ret env_ok;
     devm_regulator_get_ret := devm_regulator_get_ret env_ok;
     gpio_request_ret := gpio_request_ret env_ok;
     gpio_direction_output_ret := gpio_direction_output_ret env_ok;
     of_find_backlight_by_node_ret := of_find_backlight_by_node_ret env_ok;
     of_find_i2c_adapter_by_node_ret := of_find_i2c_adapter_by_node_ret env_ok;
     drm_panel_add_ret := drm_panel_add_ret env_ok;
     regulator_enable_ret := fun _ => -5;
     regulator_disable_ret := regulator_disable_ret env_ok;
     backlight_update_status_ret := backlight_update_status_ret env_ok;
     drm_get_edid_ret := drm_get_edid_ret env_ok;
     drm_mode_connector_update_edid_property_ret :=
       drm_mode_connector_update_edid_property_ret env_ok;
     drm_add_edid_modes_found := drm_add_edid_modes_found env_ok;
     drm_mode_duplicate_ret := drm_mode_duplicate_ret env_ok;
     mipi_dsi_dcs_write_ret := mipi_dsi_dcs_write_ret env_ok;
     mipi_dsi_attach_ret := mipi_dsi_attach_ret env_ok;
     mipi_dsi_detach_ret := mipi_dsi_detach_ret env_ok |}.

(** [sc20_panel] with the active-low bit set. *)
Definition sc20_panel_active_low : panel_simple :=
  set_enable_gpio_flags sc20_panel GPIO_ACTIVE_LOW.

(** The collaborators of [env_ok], with an EDID on the DDC bus from which
    drm_add_edid_modes() takes three modes. *)
Definition env_edid : env :=
  {| devm_kzalloc_ret := devm_kzalloc_ret env_ok;
     devm_regulator_get_ret := devm_regulator_get_ret env_ok;
     gpio_request_ret := gpio_request_ret env_ok;
     gpio_direction_output_ret := gpio_direction_output_ret env_ok;
     of_find_backlight_by_node_ret := of_find_backlight_by_node_ret env_ok;
     of_find_i2c_adapter_by_node_ret := of_find_i2c_adapter_by_node_ret env_ok;
     drm_panel_add_ret := drm_panel_add_ret env_ok;
     regulator_enable_ret := regulator_enable_ret env_ok;
     regulator_disable_ret := regulator_disable_ret env_ok;
     backlight_update_status_ret := backlight_update_status_ret env_ok;
     drm_get_edid_ret := fun _ => Some [0; 255; 255; 255; 255; 255; 255; 0];
     drm_mode_connector_update_edid_property_ret :=
       drm_mode_connector_update_edid_property_ret env_ok;
     drm_add_edid_modes_found :=
       fun _ => [lg_lh500wx1_sd03_mode; panasonic_vvx10f004b00_mode;
                 lg_lh500wx1_sd03_mode];
     drm_mode_duplicate_ret := drm_mode_duplicate_ret env_ok;
     mipi_dsi_dcs_write_ret := mipi_dsi_dcs_write_ret env_ok;
     mipi_dsi_attach_ret := mipi_dsi_attach_ret env_ok;
     mipi_dsi_detach_ret := mipi_dsi_detach_ret env_ok |}.

(** [sc20_panel] with DDC adapter 7. *)
Definition sc20_panel_ddc : panel_simple := set_ddc sc20_panel (Some 7).

(** The device-tree node of an sc20 panel: enable GPIO 12, active high, a
    backlight at node 20, no DDC bus. *)
Definition sc20_node : device_node :=
  {| compatible := "sc20,ili9881c";
     enable_gpios := 12; enable_gpios_flags := 0;
     backlight_phandle := Some 20; ddc_i2c_bus := None |}.

Definition sc20_dsi : mipi_dsi_device :=
  {| of_node := sc20_node; mode_flags := 0;
     format := MIPI_DSI_FMT_RGB565; lanes := 0 |}.

(** The collaborators of [env_ok], with a DSI host that refuses the
    attach (-ENOSYS). *)
Definition env_attach_fails : env :=
  {| devm_kzalloc_ret := devm_kzalloc_ret env_ok;
     devm_regulator_get_ret := devm_regulator_get_ret env_ok;
     gpio_request_ret := gpio_request_ret env_ok;
     gpio_direction_output_ret := gpio_direction_output_ret env_ok;
     of_find_backlight_by_node_ret := of_find_backlight_by_node_ret env_ok;
     of_find_i2c_adapter_by_node_ret := of_find_i2c_adapter_by_node_ret env_ok;
     drm_panel_add_ret := drm_panel_add_ret env_ok;
     regulator_enable_ret := regulator_enable_ret env_ok;
     regulator_disable_ret := regulator_disable_ret env_ok;
     backlight_update_status_ret := backlight_update_status_ret env_ok;
     drm_get_edid_ret := drm_get_edid_ret env_ok;
     drm_mode_connector_update_edid_property_ret :=
       drm_mode_connector_update_edid_property_ret env_ok;
     drm_add_edid_modes_found := drm_add_edid_modes_found env_ok;
     drm_mode_duplicate_ret := drm_mode_duplicate_ret env_ok;
     mipi_dsi_dcs_write_ret := mipi_dsi_dcs_write_ret env_ok;
     mipi_dsi_attach_ret := fun _ => -38;
     mipi_dsi_detach_ret := mipi_dsi_detach_ret env_ok |}.

(** An sc20 node with a backlight at node 20 and a DDC bus at node 21. *)
Definition sc20_node_ddc : device_node :=
  {| compatible := "sc20,ili9881c";
     enable_gpios := 12; enable_gpios_flags := 0;
     backlight_phandle := Some 20; ddc_i2c_bus := Some 21 |}.

Definition sc20_dsi_ddc : mipi_dsi_device :=
  {| of_node := sc20_node_ddc; mode_flags := 0;
     format := MIPI_DSI_FMT_RGB565; lanes := 0 |}.

(** The same node with the backlight device missing: panel_simple_probe
    gives the GPIO back and the DSI probe returns -EPROBE_DEFER. *)
Definition env_no_backlight : env :=
  {| devm_kzalloc_ret := devm_kzalloc_ret env_ok;
     devm_regulator_get_ret := devm_regulator_get_ret env_ok;
     gpio_request_ret := gpio_request_ret env_ok;
     gpio_direction_output_ret := gpio_direction_output_ret env_ok;
     of_find_backlight_by_node_ret := fun _ => None;
     of_find_i2c_adapter_by_node_ret := of_find_i2c_adapter_by_node_ret env_ok;
     drm_panel_add_ret := drm_panel_add_ret env_ok;
     regulator_enable_ret := regulator_enable_ret env_ok;
     regulator_disable_ret := regulator_disable_ret env_ok;
     backlight_update_status_ret := backlight_update_status_ret env_ok;
     drm_get_edid_ret := drm_get_edid_ret env_ok;
     drm_mode_connector_update_edid_property_ret :=
       drm_mode_connector_update_edid_property_ret env_ok;
     drm_add_edid_modes_found := drm_add_edid_modes_found env_ok;
     drm_mode_duplicate_ret := drm_mode_duplicate_ret env_ok;
     mipi_dsi_dcs_write_ret := mipi_dsi_dcs_write_ret env_ok;
     mipi_dsi_attach_ret := mipi_dsi_attach_ret env_ok;
     mipi_dsi_detach_ret := mipi_dsi_detach_ret env_ok |}.

(** The collaborators of [env_ok], with a DRM core that refuses the panel
    (-ENOMEM). *)
Definition env_panel_add_fails : env :=
  {| devm_kzalloc_ret := devm_kzalloc_ret env_ok;
     devm_regulator_get_ret := devm_regulator_get_ret env_ok;
     gpio_request_ret := gpio_request_ret env_ok;
     gpio_direction_output_ret := gpio_direction_output_ret env_ok;
     of_find_backlight_by_node_ret := of_find_backlight_by_node_ret env_ok;
     of_find_i2c_adapter_by_node_ret := of_find_i2c_adapter_by_node_ret env_ok;
     drm_panel_add_ret := fun _ => -12;
     regulator_enable_ret := regulator_enable_ret env_ok;
     regulator_disable_ret := regulator_disable_ret env_ok;
     backlight_update_status_ret := backlight_update_status_ret env_ok;
     drm_get_edid_ret := drm_get_edid_ret env_ok;
     drm_mode_connector_update_edid_property_ret :=
       drm_mode_connector_update_edid_property_ret env_ok;
     drm_add_edid_modes_found := drm_add_edid_modes_found env_ok;
     drm_mode_duplicate_ret := drm_mode_duplicate_ret env_ok;
     mipi_dsi_dcs_write_ret := mipi_dsi_dcs_write_ret env_ok;
     mipi_dsi_attach_ret := mipi_dsi_attach_ret env_ok;
     mipi_dsi_detach_ret := mipi_dsi_detach_ret env_ok |}.

(** [sc20_node] with an active-low enable GPIO. *)
Definition sc20_node_active_low : device_node :=
  {| compatible := "sc20,ili9881c";
     enable_gpios := 12; enable_gpios_flags := 1;
     backlight_phandle := Some 20; ddc_i2c_bus := None |}.

(** ** Further readings of a history and of a panel *)

(** Calls that switch something of the panel on or off, or talk to it over
    DSI. *)
Definition is_power_call (c : call) : bool :=
  match c with
  | c_regulator_enable _ | c_regulator_disable _ | c_gpio_set_value _ _
  | c_backlight_update_status _ _ | c_mipi_dsi_dcs_write _ _ _
  | c_mipi_dsi_attach | c_mipi_dsi_detach | c_msleep _ => true
  | _ => false
  end.

Definition is_backlight_lookup (c : call) : bool :=
  match c with
  | c_of_find_backlight_by_node _ => true
  | _ => false
  end.

(** The gpio_direction_output() calls of a history, as (line, level)
    pairs. *)
Fixpoint gpio_directions (l : list call) : list (Z * Z) :=
  match l with
  | [] => []
  | c_gpio_direction_output g v :: l' => (g, v) :: gpio_directions l'
  | _ :: l' => gpio_directions l'
  end.

(** Two panel structs that differ at most in [enabled]. *)
Definition same_resources (p p' : panel_simple) : Prop :=
  desc p' = desc p /\ backlight p' = backlight p /\ supply p' = supply p /\
  ddc p' = ddc p /\ enable_gpio_flags p' = enable_gpio_flags p /\
  enable_gpio p' = enable_gpio p.

(** [props.power] of every backlight after the panel's own was written. *)
Definition power_written (p : panel_simple) (v : Z) (old : Z -> Z) (b : Z)
  : Z :=
  match backlight p with
  | Some bl => if b =? bl then v else old b
  | None => old b
  end.



(** The collaborators of [env_ok], except that the second call of
    drm_mode_duplicate() fails. *)
Definition env_second_duplicate_fails : env :=
  {| devm_kzalloc_ret := devm_kzalloc_ret env_ok;
     devm_regulator_get_ret := devm_regulator_get_ret env_ok;
     gpio_request_ret := gpio_request_ret env_ok;
     gpio_direction_output_ret := gpio_direction_output_ret env_ok;
     of_find_backlight_by_node_ret := of_find_backlight_by_node_ret env_ok;
     of_find_i2c_adapter_by_node_ret := of_find_i2c_adapter_by_node_ret env_ok;
     drm_panel_add_ret := drm_panel_add_ret env_ok;
     regulator_enable_ret := regulator_enable_ret env_ok;
     regulator_disable_ret := regulator_disable_ret env_ok;
     backlight_update_status_ret := backlight_update_status_ret env_ok;
     drm_get_edid_ret := drm_get_edid_ret env_ok;
     drm_mode_connector_update_edid_property_ret :=
       drm_mode_connector_update_edid_property_ret env_ok;
     drm_add_edid_modes_found := drm_add_edid_modes_found env_ok;
     drm_mode_duplicate_ret :=
       fun h => negb (Nat.eqb (List.length (modes_duplicated h)) 2);
     mipi_dsi_dcs_write_ret := mipi_dsi_dcs_write_ret env_ok;
     mipi_dsi_attach_ret := mipi_dsi_attach_ret env_ok;
     mipi_dsi_detach_ret := mipi_dsi_detach_ret env_ok |}.

(** A disabled panel whose descriptor lists three modes; no DDC bus. *)
Definition three_mode_panel : panel_simple :=
  {| enabled := false;
     desc := Some {| modes := [sc20_ili9881c_mode; lg_lh500wx1_sd03_mode;
                               panasonic_vvx10f004b00_mode];
                     size := {| width := 59; height := 104 |} |};
     backlight := None; supply := 1; ddc := None;
     enable_gpio_flags := 0; enable_gpio := 12 |}.

(** The collaborators of [env_ok], with a backlight device that is found
    from the second lookup on. *)
Definition env_backlight_later : env :=
  {| devm_kzalloc_ret := devm_kzalloc_ret env_ok;
     devm_regulator_get_ret := devm_regulator_get_ret env_ok;
     gpio_request_ret := gpio_request_ret env_ok;
     gpio_direction_output_ret := gpio_direction_output_ret env_ok;
     of_find_backlight_by_node_ret :=
       fun h =>
         if (List.length (filter is_backlight_lookup h) <=? 1)%nat
         then None else Some 3;
     of_find_i2c_adapter_by_node_ret := of_find_i2c_adapter_by_node_ret env_ok;
     drm_panel_add_ret := drm_panel_add_ret env_ok;
     regulator_enable_ret := regulator_enable_ret env_ok;
     regulator_disable_ret := regulator_disable_ret env_ok;
     backlight_update_status_ret := backlight_update_status_ret env_ok;
     drm_get_edid_ret := drm_get_edid_ret env_ok;
     drm_mode_connector_update_edid_property_ret :=
       drm_mode_connector_update_edid_property_ret env_ok;
     drm_add_edid_modes_found := drm_add_edid_modes_found env_ok;
     drm_mode_duplicate_ret := drm_mode_duplicate_ret env_ok;
     mipi_dsi_dcs_write_ret := mipi_dsi_dcs_write_ret env_ok;
     mipi_dsi_attach_ret := mipi_dsi_attach_ret env_ok;
     mipi_dsi_detach_ret := mipi_dsi_detach_ret env_ok |}.

(** [l1] is [l2] with some elements left out, the others in their order. *)
Inductive subseq {A : Type} : list A -> list A -> Prop :=
| subseq_nil : subseq [] []
| subseq_skip x l1 l2 : subseq l1 l2 -> subseq l1 (x :: l2)
| subseq_keep x l1 l2 : subseq l1 l2 -> subseq (x :: l1) (x :: l2).

(** * Properties *)

(** ** The power sequencer *)

Ltac run_kernel :=
  cbv [panel_simple_enable panel_simple_disable regulator_enable
       regulator_disable gpio_set_value backlight_update_status dev_err
       set_props_power get_props_power bind ret emit ask].

Section PowerSequencer.
Context {H : kernel_headers}.
Variable e : env.

Lemma disable_when_disabled p w :
  enabled p = false -> panel_simple_disable e p w = (0, p, w).
Proof.
  intros Hp. unfold panel_simple_disable. rewrite Hp. reflexivity.
Qed.

Lemma enable_when_enabled p w :
  enabled p = true -> panel_simple_enable e p w = (0, p, w).
Proof.
  intros Hp. unfold panel_simple_enable. rewrite Hp. reflexivity.
Qed.

(** A disable that finds the panel enabled: the calls it adds, and what
    it leaves alone. *)
Lemma disable_when_enabled p w :
  enabled p = true ->
  exists w',
    panel_simple_disable e p w = (0, set_enabled p false, w') /\
    calls w' = calls w ++ disable_calls p /\
    held w' = held w /\ connector w' = connector w.
Proof.
  intros Hp. run_kernel. rewrite Hp. simpl negb. cbv iota.
  unfold disable_calls, backlight_calls, gpio_calls, active_low.
  destruct (backlight p) as [bl|];
    destruct (gpio_is_valid (enable_gpio p));
    destruct (c_true (Z.land (enable_gpio_flags p) GPIO_ACTIVE_LOW));
    cbn [calls held connector props_power];
    eexists; (split; [reflexivity|]);
    cbn [calls held connector props_power app];
    rewrite ?Z.eqb_refl, <- ?app_assoc; auto.
Qed.

(** An enable that finds the panel disabled and whose regulator call
    does not fail. *)
Lemma enable_when_disabled p w :
  enabled p = false ->
  0 <= regulator_enable_ret e (calls w ++ [c_regulator_enable (supply p)]) ->
  exists w',
    panel_simple_enable e p w = (0, set_enabled p true, w') /\
    calls w' = calls w ++ enable_calls p /\
    held w' = held w /\ connector w' = connector w.
Proof.
  intros Hp Hreg. run_kernel. rewrite Hp. cbn [calls].
  apply Z.ltb_ge in Hreg. rewrite Hreg.
  unfold enable_calls, backlight_calls, gpio_calls, active_low.
  destruct (backlight p) as [bl|];
    destruct (gpio_is_valid (enable_gpio p));
    destruct (c_true (Z.land (enable_gpio_flags p) GPIO_ACTIVE_LOW));
    cbn [calls held connector props_power];
    eexists; (split; [reflexivity|]);
    cbn [calls held connector props_power app];
    rewrite ?Z.eqb_refl, <- ?app_assoc; auto.
Qed.

(** An enable whose regulator call fails. *)
Lemma enable_supply_failure p w :
  enabled p = false ->
  regulator_enable_ret e (calls w ++ [c_regulator_enable (supply p)]) < 0 ->
  exists w',
    panel_simple_enable e p w =
      (regulator_enable_ret e (calls w ++ [c_regulator_enable (supply p)]),
       p, w') /\
    calls w' = calls w ++ [c_regulator_enable (supply p);
                           c_dev_err "failed to enable supply: %d\n"] /\
    held w' = held w /\ connector w' = connector w /\
    props_power w' = props_power w.
Proof.
  intros Hp Hreg. run_kernel. rewrite Hp. cbn [calls].
  apply Z.ltb_lt in Hreg. rewrite Hreg.
  eexists; split; [reflexivity|].
  cbn [calls held connector props_power]. rewrite <- app_assoc. auto.
Qed.

Lemma disable_returns_0 p w : fst (fst (panel_simple_disable e p w)) = 0.
Proof.
  destruct (enabled p) eqn:Hp.
  - destruct (disable_when_enabled p w Hp) as (w' & -> & _). reflexivity.
  - rewrite disable_when_disabled by assumption. reflexivity.
Qed.

Lemma disable_leaves_disabled p w :
  enabled (snd (fst (panel_simple_disable e p w))) = false.
Proof.
  destruct (enabled p) eqn:Hp.
  - destruct (disable_when_enabled p w Hp) as (w' & -> & _). reflexivity.
  - rewrite disable_when_disabled by assumption. exact Hp.
Qed.

Lemma enable_success_enabled p w :
  fst (fst (panel_simple_enable e p w)) = 0 ->
  enabled (snd (fst (panel_simple_enable e p w))) = true.
Proof.
  destruct (enabled p) eqn:Hp.
  - rewrite enable_when_enabled by assumption. intros _. exact Hp.
  - destruct (Z_lt_le_dec
      (regulator_enable_ret e (calls w ++ [c_regulator_enable (supply p)]))
      0) as [Hneg | Hpos].
    + destruct (enable_supply_failure p w Hp Hneg) as (w' & -> & _).
      cbn [fst snd]. lia.
    + destruct (enable_when_disabled p w Hp Hpos) as (w' & -> & _).
      reflexivity.
Qed.

End PowerSequencer.

Lemma gpio_writes_app l1 l2 :
  gpio_writes (l1 ++ l2) = gpio_writes l1 ++ gpio_writes l2.
Proof.
  induction l1 as [|c l1 IH]; [reflexivity|].
  destruct c; cbn [app gpio_writes]; rewrite IH; reflexivity.
Qed.

(** ** The mode provider *)

Lemma modes_duplicated_app l1 l2 :
  modes_duplicated (l1 ++ l2) = modes_duplicated l1 ++ modes_duplicated l2.
Proof.
  induction l1 as [|c l1 IH]; [reflexivity|].
  destruct c; cbn [app modes_duplicated]; rewrite IH; reflexivity.
Qed.

Lemma modes_added_app l1 l2 :
  modes_added (l1 ++ l2) = modes_added l1 ++ modes_added l2.
Proof.
  induction l1 as [|c l1 IH]; [reflexivity|].
  destruct c; cbn [app modes_added]; rewrite IH; reflexivity.
Qed.

Lemma to_uint_succ_l a b : to_uint (to_uint (a + 1) + b) = to_uint (a + (1 + b)).
Proof.
  unfold to_uint. rewrite Z.add_mod_idemp_l by lia. f_equal. lia.
Qed.

Section ModeProvider.
Context {H : kernel_headers}.
Variable e : env.

Lemma fixed_modes_loop_effect ms : forall num w,
  exists new copied,
    loop_effect e ms num w (fst (fixed_modes_loop e ms num w))
      (snd (fixed_modes_loop e ms num w)) new copied.
Proof.
  induction ms as [|m ms IH]; intros num w.
  - exists [], []. cbn [fixed_modes_loop]. unfold ret. cbn [fst snd].
    constructor; cbn [List.length filter modes_added modes_duplicated];
      rewrite ?app_nil_r, ?Z.add_0_r; auto.
  - cbn [fixed_modes_loop].
    cbv [bind drm_mode_duplicate drm_mode_set_name drm_mode_probed_add
         dev_err set_connector emit ask ret].
    cbn [calls held connector props_power].
    destruct (drm_mode_duplicate_ret e (calls w ++ [c_drm_mode_duplicate m]))
      eqn:Hok.
    + match goal with
      | |- context [fixed_modes_loop e ms ?n ?w1] =>
          destruct (IH n w1) as (new & copied & E)
      end.
      destruct E. cbn [calls held connector props_power probed_modes
                       edid_blob width_mm height_mm] in *.
      exists ([c_drm_mode_duplicate m; c_drm_mode_set_name m;
               c_drm_mode_probed_add m] ++ new), (m :: copied).
      constructor; cbn [calls held connector props_power probed_modes
                        edid_blob width_mm height_mm]; auto.
      * rewrite le_calls0, <- !app_assoc. reflexivity.
      * rewrite le_probed0, <- app_assoc. reflexivity.
      * cbn [app modes_added]. congruence.
      * cbn [app modes_duplicated]. congruence.
      * cbn [app filter is_dev_err List.length]. lia.
      * rewrite le_num1, to_uint_succ_l. f_equal.
        cbn [List.length]. lia.
      * discriminate.
      * intros Hn. apply le_range0. unfold to_uint.
        apply Z.mod_pos_bound. lia.
      * intros Hall. f_equal. auto.
      * intros Hnone. rewrite Hnone in Hok. discriminate.
    + match goal with
      | |- context [fixed_modes_loop e ms ?n ?w1] =>
          destruct (IH n w1) as (new & copied & E)
      end.
      destruct E. cbn [calls held connector props_power probed_modes
                       edid_blob width_mm height_mm] in *.
      exists ([c_drm_mode_duplicate m;
               c_dev_err "failed to add mode %ux%u@%u\n"] ++ new), copied.
      constructor; cbn [calls held connector props_power probed_modes
                        edid_blob width_mm height_mm]; auto.
      * rewrite le_calls0, <- !app_assoc. reflexivity.
      * cbn [app modes_duplicated]. congruence.
      * cbn [app filter is_dev_err List.length]. lia.
      * intros Hall. rewrite Hall in Hok. discriminate.
Qed.

Lemma get_fixed_modes_effect p w :
  exists new copied,
    let '(n, w') := panel_simple_get_fixed_modes e p w in
    calls w' = calls w ++ new /\
    held w' = held w /\ props_power w' = props_power w /\
    edid_blob (connector w') = edid_blob (connector w) /\
    probed_modes (connector w') = probed_modes (connector w) ++ copied /\
    filter is_edid_call new = [] /\
    modes_added new = copied /\
    n = to_int (to_uint (Z.of_nat (List.length copied))) /\
    match desc p with
    | Some d =>
        width_mm (connector w') = width (size d) /\
        height_mm (connector w') = height (size d) /\
        modes_duplicated new = modes d /\
        (List.length (filter is_dev_err new) + List.length copied
         = List.length (modes d))%nat /\
        ((forall h, drm_mode_duplicate_ret e h = true) ->
         copied = modes d) /\
        ((forall h, drm_mode_duplicate_ret e h = false) -> copied = [])
    | None =>
        new = [] /\ copied = [] /\
        width_mm (connector w') = width_mm (connector w) /\
        height_mm (connector w') = height_mm (connector w)
    end.
Proof.
  unfold panel_simple_get_fixed_modes.
  destruct (desc p) as [d|].
  - destruct (fixed_modes_loop_effect (modes d) 0 w) as (new & copied & E).
    exists new, copied.
    cbv [bind set_connector ret].
    destruct (fixed_modes_loop e (modes d) 0 w) as [n w1].
    cbn [fst snd] in E. destruct E.
    cbn [calls held connector props_power probed_modes edid_blob
         width_mm height_mm].
    assert (Hn : n = to_uint (Z.of_nat (List.length copied))).
    { assert (0 <= n < 2 ^ 32) by (apply le_range0; lia).
      change (n = to_uint (0 + Z.of_nat (List.length copied))).
      rewrite <- le_num1. unfold to_uint. rewrite Z.mod_small; lia. }
    repeat (split; [solve [auto | congruence]|]). auto.
  - exists [], []. unfold ret. cbn beta iota.
    rewrite !app_nil_r. repeat split; reflexivity.
Qed.

Lemma get_modes_effect p w :
  exists new copied,
    let '(n, w') := panel_simple_get_modes e p w in
    calls w' = calls w ++ edid_calls e p w ++ new /\
    held w' = held w /\ props_power w' = props_power w /\
    edid_blob (connector w') =
      match ddc p with
      | Some bus => drm_get_edid_ret e (calls w ++ [c_drm_get_edid bus])
      | None => edid_blob (connector w)
      end /\
    probed_modes (connector w')
      = probed_modes (connector w) ++ edid_modes e p w ++ copied /\
    filter is_edid_call new = [] /\
    modes_added new = copied /\
    n = to_int (to_int (edid_modes_added e p w)
                + to_int (to_uint (Z.of_nat (List.length copied)))) /\
    match desc p with
    | Some d =>
        width_mm (connector w') = width (size d) /\
        height_mm (connector w') = height (size d) /\
        modes_duplicated new = modes d /\
        (List.length (filter is_dev_err new) + List.length copied
         = List.length (modes d))%nat /\
        ((forall h, drm_mode_duplicate_ret e h = true) ->
         copied = modes d) /\
        ((forall h, drm_mode_duplicate_ret e h = false) -> copied = [])
    | None =>
        new = [] /\ copied = [] /\
        width_mm (connector w') = width_mm (connector w) /\
        height_mm (connector w') = height_mm (connector w)
    end.
Proof.
  unfold panel_simple_get_modes, edid_calls, edid_modes_added, edid_modes.
  cbv [bind drm_get_edid drm_mode_connector_update_edid_property
       drm_add_edid_modes kfree set_connector emit ask ret].
  cbn [calls held connector props_power].
  destruct (ddc p) as [bus|].
  - destruct (drm_get_edid_ret e (calls w ++ [c_drm_get_edid bus]))
      as [blob|].
    + match goal with
      | |- context [panel_simple_get_fixed_modes e p ?w1] =>
          destruct (get_fixed_modes_effect p w1)
            as (new & copied & E);
          destruct (panel_simple_get_fixed_modes e p w1) as [n w']
      end.
      exists new, copied.
      cbn [calls held connector props_power probed_modes edid_blob
           width_mm height_mm] in E.
      destruct E as (Hc & Hh & Hpw & Hed & Hpm & Hne & Hma & Hn & Hd).
      rewrite <- !app_assoc in Hpm. cbn [app] in Hpm.
      rewrite Hc. cbn [calls]. rewrite <- !app_assoc. cbn [app].
      rewrite Z.add_0_l, Hn.
      repeat (split; [solve [auto]|]). exact Hd.
    + match goal with
      | |- context [panel_simple_get_fixed_modes e p ?w1] =>
          destruct (get_fixed_modes_effect p w1)
            as (new & copied & E);
          destruct (panel_simple_get_fixed_modes e p w1) as [n w']
      end.
      exists new, copied.
      cbn [calls held connector props_power probed_modes edid_blob
           width_mm height_mm] in E.
      destruct E as (Hc & Hh & Hpw & Hed & Hpm & Hne & Hma & Hn & Hd).
      rewrite Hc, <- !app_assoc. cbn [app]. rewrite Hn.
      repeat (split; [solve [auto]|]). exact Hd.
  - destruct (get_fixed_modes_effect p w) as (new & copied & E).
    destruct (panel_simple_get_fixed_modes e p w) as [n w'].
    exists new, copied.
    destruct E as (Hc & Hh & Hpw & Hed & Hpm & Hne & Hma & Hn & Hd).
    rewrite Hc. cbn [app]. rewrite Hn.
    repeat (split; [solve [auto]|]). exact Hd.
Qed.

End ModeProvider.

(** The modes the loop puts on the connector, mode by mode. *)
Section ModeOrder.
Variable e : env.

Lemma kept_cons_true m ms oks : kept (m :: ms) (true :: oks) = m :: kept ms oks.
Proof. reflexivity. Qed.

Lemma kept_cons_false m ms oks : kept (m :: ms) (false :: oks) = kept ms oks.
Proof. reflexivity. Qed.

Lemma fixed_modes_loop_order ms : forall num w,
  exists new,
    calls (snd (fixed_modes_loop e ms num w)) = calls w ++ new /\
    modes_added new = kept ms (duplicate_answers e (calls w) ms) /\
    subseq (modes_added new) ms /\
    filter is_power_call new = [].
Proof.
  induction ms as [|m ms IH]; intros num w.
  - exists []. cbn [fixed_modes_loop]. unfold ret. cbn [snd].
    rewrite app_nil_r. repeat split. constructor.
  - cbn [fixed_modes_loop duplicate_answers].
    cbv [bind drm_mode_duplicate drm_mode_set_name drm_mode_probed_add
         dev_err set_connector emit ask ret].
    cbn [calls held connector props_power].
    destruct (drm_mode_duplicate_ret e (calls w ++ [c_drm_mode_duplicate m])).
    + match goal with
      | |- context [fixed_modes_loop e ms ?n ?w1] =>
          destruct (IH n w1) as (new & Hc & Hk & Hs & Hq)
      end.
      cbn [calls] in Hk. rewrite <- !app_assoc in Hk. cbn [app] in Hk.
      exists ([c_drm_mode_duplicate m; c_drm_mode_set_name m;
               c_drm_mode_probed_add m] ++ new).
      split;
        [rewrite Hc; cbn [calls]; rewrite <- !app_assoc; reflexivity|].
      split; [cbn [app modes_added]; rewrite kept_cons_true, Hk;
              reflexivity|].
      split; [cbn [app modes_added]; constructor; exact Hs | exact Hq].
    + match goal with
      | |- context [fixed_modes_loop e ms ?n ?w1] =>
          destruct (IH n w1) as (new & Hc & Hk & Hs & Hq)
      end.
      cbn [calls] in Hk. rewrite <- !app_assoc in Hk. cbn [app] in Hk.
      exists ([c_drm_mode_duplicate m;
               c_dev_err "failed to add mode %ux%u@%u\n"] ++ new).
      split;
        [rewrite Hc; cbn [calls]; rewrite <- !app_assoc; reflexivity|].
      split; [cbn [app modes_added]; rewrite kept_cons_false, Hk;
              reflexivity|].
      split; [cbn [app modes_added]; constructor; exact Hs | exact Hq].
Qed.

Lemma get_fixed_modes_order p w :
  exists new,
    calls (snd (panel_simple_get_fixed_modes e p w)) = calls w ++ new /\
    (forall d, desc p = Some d ->
       modes_added new
         = kept (modes d) (duplicate_answers e (calls w) (modes d))) /\
    subseq (modes_added new)
      (match desc p with Some d => modes d | None => [] end) /\
    filter is_power_call new = [].
Proof.
  unfold panel_simple_get_fixed_modes.
  destruct (desc p) as [d|].
  - destruct (fixed_modes_loop_order (modes d) 0 w)
      as (new & Hc & Hk & Hs & Hq).
    exists new. cbv [bind set_connector ret].
    destruct (fixed_modes_loop e (modes d) 0 w) as [n w1].
    cbn [snd calls] in *.
    split; [exact Hc|]. split; [|auto].
    intros d' [= <-]. exact Hk.
  - exists []. unfold ret. cbn [snd]. rewrite app_nil_r.
    split; [reflexivity|]. split; [discriminate|].
    split; [constructor | reflexivity].
Qed.

Lemma get_modes_order p w :
  exists new,
    calls (snd (panel_simple_get_modes e p w))
      = calls w ++ edid_calls e p w ++ new /\
    (forall d, desc p = Some d ->
       modes_added new
         = kept (modes d)
             (duplicate_answers e (calls w ++ edid_calls e p w) (modes d))) /\
    subseq (modes_added new)
      (match desc p with Some d => modes d | None => [] end) /\
    filter is_power_call new = [].
Proof.
  unfold panel_simple_get_modes, edid_calls.
  cbv [bind drm_get_edid drm_mode_connector_update_edid_property
       drm_add_edid_modes kfree set_connector emit ask ret].
  cbn [calls held connector props_power].
  destruct (ddc p) as [bus|];
    [destruct (drm_get_edid_ret e (calls w ++ [c_drm_get_edid bus]))
       as [blob|]|];
    match goal with
    | |- context [panel_simple_get_fixed_modes e p ?w1] =>
        destruct (get_fixed_modes_order p w1) as (new & Hc & Hk & Hs & Hq);
        destruct (panel_simple_get_fixed_modes e p w1) as [n w']
    end;
    cbn [snd calls] in *; exists new;
    rewrite <- ?app_assoc in Hk; cbn [app] in Hk;
    rewrite ?app_nil_r;
    (split; [rewrite Hc, <- ?app_assoc; reflexivity | auto]).
Qed.

End ModeOrder.

Lemma to_int_small z : - 2 ^ 31 <= z < 2 ^ 31 -> to_int z = z.
Proof.
  intros Hz. unfold to_int. rewrite Z.mod_small; lia.
Qed.

Lemma to_uint_small z : 0 <= z < 2 ^ 32 -> to_uint z = z.
Proof.
  intros Hz. unfold to_uint. apply Z.mod_small. lia.
Qed.

(** ** The DSI bring-up sequence *)

(** Two computations that leave the same world, followed by continuations
    that agree on everything the first ones can return. *)
Lemma bind_same_world {A B} (m1 m2 : M A) (k1 k2 : A -> M B) (w : world) :
  snd (m1 w) = snd (m2 w) ->
  (forall a1 a2 w', (fst (m1 w) = fst (m2 w) -> a1 = a2) ->
                    k1 a1 w' = k2 a2 w') ->
  bind m1 k1 w = bind m2 k2 w.
Proof.
  intros Hw Hk. unfold bind.
  destruct (m1 w) as [a1 w1], (m2 w) as [a2 w2]. cbn [fst snd] in *.
  subst w2. apply Hk. auto.
Qed.

Section DsiScript.
Context {H : kernel_headers}.

Lemma dcs_writes_effect e cmds : forall r w,
  calls (snd (dcs_writes e cmds r w)) = calls w ++ map dcs_call cmds /\
  held (snd (dcs_writes e cmds r w)) = held w /\
  connector (snd (dcs_writes e cmds r w)) = connector w /\
  props_power (snd (dcs_writes e cmds r w)) = props_power w.
Proof.
  induction cmds as [|[[cmd data] len] cmds IH]; intros r w.
  - cbn [dcs_writes map]. unfold ret. cbn [snd].
    rewrite app_nil_r. auto.
  - cbn [dcs_writes map dcs_call].
    cbv [bind mipi_dsi_dcs_write emit ask].
    match goal with
    | |- context [dcs_writes e cmds ?r1 ?w1] =>
        destruct (IH r1 w1) as (Hc & Hh & Hco & Hp)
    end.
    rewrite Hc, Hh, Hco, Hp. cbn [calls held connector props_power].
    rewrite <- app_assoc. auto.
Qed.

(** Neither the answers to the writes nor the value of [ret] on entry
    change what a run of writes does to the world. *)
Lemma dcs_writes_any_answer e1 e2 cmds : forall r1 r2 w,
  snd (dcs_writes e1 cmds r1 w) = snd (dcs_writes e2 cmds r2 w).
Proof.
  induction cmds as [|[[cmd data] len] cmds IH]; intros r1 r2 w.
  - reflexivity.
  - cbn [dcs_writes]. cbv [bind mipi_dsi_dcs_write emit ask].
    apply IH.
Qed.

(** The DSI probe from the return of panel_simple_probe on. *)
Lemma dsi_probe_after_probe e dsi d w err panel w1 :
  of_match_node dsi_of_match (of_node dsi) = Some d ->
  panel_simple_probe e (of_node dsi) (Some (dsi_desc d)) w
    = (err, panel, w1) ->
  0 <= err ->
  exists w',
    panel_simple_dsi_probe e dsi w =
      (mipi_dsi_attach_ret e
         (calls w1 ++ init_script_calls ++ [c_mipi_dsi_attach]),
       {| of_node := of_node dsi; mode_flags := dsi_flags d;
          format := dsi_format d; lanes := dsi_lanes d |},
       panel, w') /\
    calls w' = calls w1 ++ init_script_calls ++ [c_mipi_dsi_attach] /\
    held w' = held w1 /\ connector w' = connector w1 /\
    props_power w' = props_power w1.
Proof.
  intros Hm Hp Herr. unfold panel_simple_dsi_probe. rewrite Hm.
  unfold bind at 1. rewrite Hp.
  apply Z.ltb_ge in Herr. rewrite Herr.
  unfold bind at 1.
  destruct (dcs_writes_effect e ili9881c_on_cmds 0 w1)
    as (Hc1 & Hh1 & Hco1 & Hp1).
  destruct (dcs_writes e ili9881c_on_cmds 0 w1) as [r w2].
  cbn [snd] in *.
  cbv [bind msleep mipi_dsi_attach emit ask ret].
  match goal with
  | |- context [dcs_writes e ili9881c_display_on r ?w3] =>
      destruct (dcs_writes_effect e ili9881c_display_on r w3)
        as (Hc2 & Hh2 & Hco2 & Hp2);
      destruct (dcs_writes e ili9881c_display_on r w3) as [r' w4]
  end.
  cbn [snd calls held connector props_power] in *.
  assert (Hcalls : calls w4 ++ [c_mipi_dsi_attach]
                   = calls w1 ++ init_script_calls ++ [c_mipi_dsi_attach]).
  { rewrite Hc2, Hc1. unfold init_script_calls.
    rewrite <- !app_assoc. reflexivity. }
  cbn [calls]. rewrite Hcalls.
  eexists. split; [reflexivity|].
  cbn [calls held connector props_power].
  rewrite Hh2, Hh1, Hco2, Hco1, Hp2, Hp1. auto.
Qed.

(** The answers to the writes do not reach the result of the probe. *)
Lemma dsi_probe_any_write_answer e f dsi w :
  panel_simple_dsi_probe (with_dcs_write_ret f e) dsi w
    = panel_simple_dsi_probe e dsi w.
Proof.
  unfold panel_simple_dsi_probe.
  destruct (of_match_node dsi_of_match (of_node dsi)) as [d|];
    [|reflexivity].
  change (panel_simple_probe (with_dcs_write_ret f e))
    with (panel_simple_probe e).
  apply bind_same_world; [reflexivity|].
  intros [err panel] [err' panel'] w1 Hr.
  specialize (Hr eq_refl). injection Hr as <- <-.
  destruct (err <? 0); [reflexivity|].
  apply bind_same_world; [apply dcs_writes_any_answer|].
  intros r r0 w2 _.
  apply bind_same_world; [reflexivity|].
  intros _ _ w3 _.
  apply bind_same_world; [apply dcs_writes_any_answer|].
  intros _ _ w4 _.
  reflexivity.
Qed.

End DsiScript.

(** ** The probe *)

Lemma of_parse_phandle_backlight np w :
  of_parse_phandle np "backlight" w =
    (backlight_phandle np,
     {| calls := calls w ++ [c_of_parse_phandle "backlight"];
        held := match backlight_phandle np with
                | Some n => r_of_node n :: held w
                | None => held w
                end;
        connector := connector w; props_power := props_power w |}).
Proof.
  unfold of_parse_phandle. cbn [String.eqb Ascii.eqb Bool.eqb].
  cbv [bind emit ret acquire set_held].
  destruct (backlight_phandle np); reflexivity.
Qed.

Lemma of_parse_phandle_ddc np w :
  of_parse_phandle np "ddc-i2c-bus" w =
    (ddc_i2c_bus np,
     {| calls := calls w ++ [c_of_parse_phandle "ddc-i2c-bus"];
        held := match ddc_i2c_bus np with
                | Some n => r_of_node n :: held w
                | None => held w
                end;
        connector := connector w; props_power := props_power w |}).
Proof.
  unfold of_parse_phandle. cbn [String.eqb Ascii.eqb Bool.eqb].
  cbv [bind emit ret acquire set_held].
  destruct (ddc_i2c_bus np); reflexivity.
Qed.

Ltac probe_unfold :=
  cbv [panel_simple_probe probe_gpio probe_backlight probe_ddc
       probe_register free_ddc free_backlight free_gpio
       of_get_named_gpio_flags devm_kzalloc devm_regulator_get
       gpio_request gpio_direction_output gpio_free
       of_find_backlight_by_node of_find_i2c_adapter_by_node
       of_node_put put_device drm_panel_init drm_panel_add
       dev_set_drvdata dev_err acquire release set_held
       bind ret emit ask];
  cbn [calls held connector props_power enable_gpio backlight ddc
       enable_gpio_flags desc enabled supply
       set_desc set_supply set_enable_gpio set_enable_gpio_flags
       set_backlight set_ddc kzalloc_panel].

Ltac probe_case :=
  match goal with
  | |- context [of_parse_phandle ?np "backlight" ?w] =>
      rewrite (of_parse_phandle_backlight np w)
  | |- context [of_parse_phandle ?np "ddc-i2c-bus" ?w] =>
      rewrite (of_parse_phandle_ddc np w)
  | Hx : ?c = _ |- context [if ?c then _ else _] => rewrite Hx
  | Hx : ?c = _ |- context [if negb ?c then _ else _] => rewrite Hx
  | |- context [if negb ?c then _ else _] => destruct c eqn:?; cbn [negb]
  | |- context [if ?c then _ else _] => destruct c eqn:?
  | |- context [match ?x with Ptr _ => _ | ErrPtr _ => _ end] =>
      destruct x eqn:?
  | |- context [match ?x with Some _ => _ | None => _ end] =>
      destruct x eqn:?
  end;
  cbv beta iota;
  cbn [calls held connector props_power enable_gpio backlight ddc
       enable_gpio_flags desc enabled supply fst snd
       set_desc set_supply set_enable_gpio set_enable_gpio_flags
       set_backlight set_ddc kzalloc_panel].

Ltac refs_done :=
  repeat progress (cbn [drop_ref resource_eqb app]; rewrite ?Z.eqb_refl);
  auto.

Section ProbeProperties.
Context {H : kernel_headers}.
Variable e : env.

(** panel_simple_probe either fails and holds nothing more than before,
    or returns 0 with a disabled panel and holds exactly the panel's
    references. *)
Lemma panel_simple_probe_balance np d w :
  let '(err, panel, w') := panel_simple_probe e np d w in
  match panel with
  | None => held w' = held w
  | Some p =>
      err = 0 /\ enabled p = false /\ desc p = d /\
      enable_gpio p = enable_gpios np /\
      held w' = panel_refs p ++ held w
  end.
Proof.
  unfold panel_refs. probe_unfold.
  repeat probe_case; try solve [refs_done];
    repeat (split; [reflexivity|]);
    repeat match goal with Hv : gpio_is_valid _ = _ |- _ =>
      rewrite Hv end;
    refs_done.
Qed.

Lemma free_ddc_calls p err w :
  fst (free_ddc p err w) = (err, None) /\
  calls (snd (free_ddc p err w)) = calls w ++ release_calls p.
Proof.
  unfold release_calls. probe_unfold.
  destruct (ddc p), (backlight p), (gpio_is_valid (enable_gpio p));
    cbn [fst snd calls]; rewrite <- ?app_assoc, ?app_nil_r; auto.
Qed.

(** A backlight or a DDC bus named in the device tree whose device is
    not there yet: the probe that gets as far as looking for it returns
    -EPROBE_DEFER, holding nothing. *)
Lemma panel_simple_probe_defer np d w :
  let '(err, panel, w') := panel_simple_probe e np d w in
  exists new,
    calls w' = calls w ++ new /\
    ((forall h, of_find_backlight_by_node_ret e h = None) ->
     forall n, In (c_of_find_backlight_by_node n) new ->
     err = - EPROBE_DEFER /\ panel = None /\ held w' = held w) /\
    ((forall h, of_find_i2c_adapter_by_node_ret e h = None) ->
     forall n, In (c_of_find_i2c_adapter_by_node n) new ->
     err = - EPROBE_DEFER /\ panel = None /\ held w' = held w).
Proof.
  probe_unfold.
  repeat probe_case;
    (eexists; split;
     [rewrite <- ?app_assoc; cbn [app]; reflexivity|]);
    (split; intros Hnone n Hin;
     [ try (rewrite Hnone in *; discriminate)
     | try (rewrite Hnone in *; discriminate) ]);
    try (cbn [In] in Hin;
         repeat (destruct Hin as [Hin|Hin]; [discriminate|]);
         destruct Hin);
    repeat (split; [reflexivity|]); refs_done.
Qed.

(** The polarity of a bound panel is the one the device tree gives its
    enable GPIO. *)
Lemma panel_simple_probe_polarity np d w :
  forall p,
    snd (fst (panel_simple_probe e np d w)) = Some p ->
    enable_gpio p = enable_gpios np /\
    c_true (Z.land (enable_gpio_flags p) GPIO_ACTIVE_LOW)
      = (gpio_is_valid (enable_gpios np)
         && c_true (Z.land (enable_gpios_flags np) OF_GPIO_ACTIVE_LOW))%bool.
Proof.
  probe_unfold.
  repeat probe_case; intros p Hp; try discriminate;
    injection Hp as <-; cbn [enable_gpio enable_gpio_flags];
    repeat match goal with Hv : _ = _ |- _ => rewrite Hv end;
    split; reflexivity.
Qed.

End ProbeProperties.

(** ** Where the init script is sent *)

Lemma spec_enable_order_has_dcs_write l :
  spec_enable_order l -> existsb is_dcs_write l = true.
Proof.
  intros (s & g & v & cmd & data & len & bl & pw & l0 & l1 & l2 & l3 & l4
          & ->).
  apply existsb_exists. exists (c_mipi_dsi_dcs_write cmd data len).
  split; [|reflexivity].
  apply in_or_app; right; right.
  apply in_or_app; right; right.
  apply in_or_app; right; left. reflexivity.
Qed.

Lemma rev_undo_enable_calls {H : kernel_headers} p :
  rev (map undo (enable_calls p)) = disable_calls p.
Proof.
  unfold enable_calls, disable_calls, gpio_calls, backlight_calls.
  destruct (backlight p), (gpio_is_valid (enable_gpio p)), (active_low p);
    reflexivity.
Qed.

Lemma enable_calls_no_dcs_write {H : kernel_headers} p :
  existsb is_dcs_write (enable_calls p) = false.
Proof.
  unfold enable_calls, gpio_calls, backlight_calls.
  destruct (backlight p), (gpio_is_valid (enable_gpio p)); reflexivity.
Qed.

(** ** A probe that fails at mipi_dsi_attach() *)

(** The DSI probe returns the error of mipi_dsi_attach() as it is: what
    panel_simple_probe took stays taken. *)
Lemma dsi_probe_attach_failure_holds
    {H : kernel_headers} (e : env) (dsi : mipi_dsi_device) (w : world)
    (d : panel_desc_dsi) (err : Z) (p : panel_simple) (w1 : world) :
  of_match_node dsi_of_match (of_node dsi) = Some d ->
  panel_simple_probe e (of_node dsi) (Some (dsi_desc d)) w
    = (err, Some p, w1) ->
  let '(r, _, _, w') := panel_simple_dsi_probe e dsi w in
  r = mipi_dsi_attach_ret e (calls w') /\
  held w' = panel_refs p ++ held w.
Proof.
  intros Hm Hprobe.
  pose proof (panel_simple_probe_balance e (of_node dsi)
                (Some (dsi_desc d)) w) as Hb.
  rewrite Hprobe in Hb. destruct Hb as (Herr & _ & _ & _ & Hh).
  assert (Hpos : 0 <= err) by lia.
  destruct (dsi_probe_after_probe e dsi w Hm Hprobe Hpos)
    as (w' & -> & Hc & Hh' & _).
  split; [rewrite Hc; reflexivity|]. congruence.
Qed.

(** A backlight named in the device tree but not registered yet: the GPIO
    is given back and the probe asks to be called again. *)
Example dsi_probe_defers_without_backlight :
  let '(err, _, panel, w') :=
    @panel_simple_dsi_probe linux_headers env_no_backlight sc20_dsi_ddc
      world0 in
  err = -517 /\ panel = None /\ held w' = [] /\
  filter is_release (calls w') = [c_gpio_free 12].
Proof.
  vm_compute. repeat split.
Qed.

(** A failure inside panel_simple_probe, at drm_panel_add(): the DDC
    adapter, the backlight and the GPIO are given back, in this order, and
    no DCS write is made. *)
Example dsi_probe_unwinds_after_panel_add :
  let '(err, _, panel, w') :=
    @panel_simple_dsi_probe linux_headers env_panel_add_fails sc20_dsi_ddc
      world0 in
  err = -12 /\ panel = None /\ held w' = [] /\
  filter is_release (calls w')
    = [c_put_device (r_i2c_adapter 7); c_put_device (r_backlight 3);
       c_gpio_free 12] /\
  existsb is_dcs_write (calls w') = false.
Proof.
  vm_compute. repeat split.
Qed.

(** * The properties of the specification *)

(** C1, as the specification has it, fails: the DSI probe of an sc20 panel
    succeeds and yields [sc20_panel]; enable() on it succeeds with three
    calls (regulator, GPIO, backlight) and no DCS write between the GPIO
    and the backlight. *)
Lemma enable_sends_no_dcs_write :
  let '(_, _, panel, w1) :=
    @panel_simple_dsi_probe linux_headers env_ok sc20_dsi world0 in
  panel = Some sc20_panel /\
  let '(r, p', w2) :=
    @panel_simple_enable linux_headers env_ok sc20_panel w1 in
  r = 0 /\ enabled p' = true /\
  skipn (List.length (calls w1)) (calls w2)
    = [c_regulator_enable 1; c_gpio_set_value 12 1;
       c_backlight_update_status 3 0] /\
  ~ spec_enable_order (skipn (List.length (calls w1)) (calls w2)).
Proof.
  vm_compute. split; [reflexivity|].
  split; [reflexivity|]. split; [reflexivity|]. split; [reflexivity|].
  intros Hs. apply spec_enable_order_has_dcs_write in Hs. discriminate.
Qed.

(** C1, amended: an enable() that finds the panel disabled and the supply
    willing calls regulator_enable(), then sets a valid enable GPIO to its
    asserted level, then unblanks a backlight if there is one, and makes no
    DCS write; a disable() that finds the panel enabled makes the reverse
    calls (backlight powerdown, GPIO deasserted, regulator_disable()).  The
    DCS writes of the init script are made by the DSI probe, between the
    return of panel_simple_probe and mipi_dsi_attach(). *)
Theorem power_sequence_order
    {H : kernel_headers} (e : env) (p : panel_simple) (w : world) :
  (enabled p = false ->
   0 <= regulator_enable_ret e (calls w ++ [c_regulator_enable (supply p)]) ->
   let '(r, p', w') := panel_simple_enable e p w in
   r = 0 /\
   calls w' = calls w
     ++ [c_regulator_enable (supply p)]
     ++ gpio_calls p (if active_low p then 0 else 1)
     ++ backlight_calls p FB_BLANK_UNBLANK /\
   existsb is_dcs_write (enable_calls p) = false) /\
  (enabled p = true ->
   let '(r, p', w') := panel_simple_disable e p w in
   r = 0 /\
   calls w' = calls w
     ++ backlight_calls p FB_BLANK_POWERDOWN
     ++ gpio_calls p (if active_low p then 1 else 0)
     ++ [c_regulator_disable (supply p)] /\
   disable_calls p = rev (map undo (enable_calls p))) /\
  (forall dsi d err panel w1,
     of_match_node dsi_of_match (of_node dsi) = Some d ->
     panel_simple_probe e (of_node dsi) (Some (dsi_desc d)) w
       = (err, panel, w1) ->
     0 <= err ->
     calls (snd (panel_simple_dsi_probe e dsi w))
       = calls w1 ++ init_script_calls ++ [c_mipi_dsi_attach]).
Proof.
  split; [|split].
  - intros Hp Hreg.
    destruct (enable_when_disabled e p w Hp Hreg) as (w' & -> & Hc & _).
    split; [reflexivity|]. split; [exact Hc|].
    apply enable_calls_no_dcs_write.
  - intros Hp.
    destruct (disable_when_enabled e p w Hp) as (w' & -> & Hc & _).
    split; [reflexivity|]. split; [exact Hc|].
    symmetry. apply rev_undo_enable_calls.
  - intros dsi d err panel w1 Hm Hprobe Herr.
    destruct (dsi_probe_after_probe e dsi w Hm Hprobe Herr)
      as (w' & -> & Hc & _).
    exact Hc.
Qed.

Lemma power_sequence_order_witness :
  calls (snd (@panel_simple_enable linux_headers env_ok sc20_panel world0))
    = [c_regulator_enable 1; c_gpio_set_value 12 1;
       c_backlight_update_status 3 0] /\
  calls (snd (@panel_simple_disable linux_headers env_ok
                (set_enabled sc20_panel true) world0))
    = [c_backlight_update_status 3 4; c_gpio_set_value 12 0;
       c_regulator_disable 1] /\
  skipn 11 (calls (snd (@panel_simple_dsi_probe linux_headers env_ok
                          sc20_dsi world0)))
    = @init_script_calls ++ [c_mipi_dsi_attach].
Proof.
  pose proof (@power_sequence_order linux_headers env_ok sc20_panel world0)
    as (He & _ & _).
  pose proof (@power_sequence_order linux_headers env_ok
                (set_enabled sc20_panel true) world0) as (_ & Hd & Hprobe).
  split; [|split].
  - specialize (He eq_refl).
    assert (Hreg : 0 <= regulator_enable_ret env_ok
                          (calls world0
                           ++ [c_regulator_enable (supply sc20_panel)]))
      by (cbn; lia).
    specialize (He Hreg).
    destruct (@panel_simple_enable linux_headers env_ok sc20_panel world0)
      as [[r p'] w'].
    destruct He as (_ & Hc & _). exact Hc.
  - specialize (Hd eq_refl).
    destruct (@panel_simple_disable linux_headers env_ok
                (set_enabled sc20_panel true) world0) as [[r p'] w'].
    destruct Hd as (_ & Hc & _). exact Hc.
  - assert (Hm : @of_match_node (@dsi_of_match linux_headers)
                   (of_node sc20_dsi)
                 = Some (@sc20_ili9881c linux_headers)) by reflexivity.
    pose (X := @panel_simple_probe linux_headers env_ok (of_node sc20_dsi)
                 (Some (dsi_desc (@sc20_ili9881c linux_headers)))
                 world0).
    assert (Hp : X = (0, Some sc20_panel, snd X))
      by (vm_compute; reflexivity).
    assert (Herr : 0 <= 0) by lia.
    rewrite (Hprobe _ _ _ _ _ Hm Hp Herr).
    vm_compute. reflexivity.
Defined.

(** C2: for every panel and every sequence of calls made before, after
    disable() returns the enabled flag is false, and after enable() returns
    0 the enabled flag is true. *)
Theorem enabled_flag_tracks_last_call
    {H : kernel_headers} (e : env) (fs : list panel_func)
    (p : panel_simple) (w : world) :
  let (p1, w1) := call_funcs e fs p w in
  enabled (snd (fst (panel_simple_disable e p1 w1))) = false /\
  (fst (fst (panel_simple_enable e p1 w1)) = 0 ->
   enabled (snd (fst (panel_simple_enable e p1 w1))) = true).
Proof.
  destruct (call_funcs e fs p w) as [p1 w1]. split.
  - apply disable_leaves_disabled.
  - apply enable_success_enabled.
Qed.

Lemma enabled_flag_tracks_last_call_witness :
  fst (fst (@panel_simple_enable linux_headers env_ok sc20_panel world0)) = 0 /\
  enabled (snd (fst (@panel_simple_enable linux_headers env_ok
                       sc20_panel world0))) = true.
Proof.
  split; [reflexivity|].
  apply (proj2 (@enabled_flag_tracks_last_call linux_headers env_ok []
                  sc20_panel world0)).
  reflexivity.
Defined.

(** C3: enable() on an enabled panel and disable() on a disabled panel
    return 0 and change nothing, no call is made; hence a second enable()
    after a successful one, and a second disable() after any disable(),
    leave the result of the first as it is. *)
Theorem enable_disable_idempotent
    {H : kernel_headers} (e : env) (p : panel_simple) (w : world) :
  (enabled p = true -> panel_simple_enable e p w = (0, p, w)) /\
  (enabled p = false -> panel_simple_disable e p w = (0, p, w)) /\
  (let '(r, p1, w1) := panel_simple_enable e p w in
   r = 0 -> panel_simple_enable e p1 w1 = (0, p1, w1)) /\
  (let '(r, p1, w1) := panel_simple_disable e p w in
   panel_simple_disable e p1 w1 = (0, p1, w1)) /\
  (fst (fst (panel_simple_enable e p w)) = 0 ->
   call_funcs e [f_enable; f_enable] p w = call_funcs e [f_enable] p w) /\
  call_funcs e [f_disable; f_disable] p w = call_funcs e [f_disable] p w.
Proof.
  assert (He : let '(r, p1, w1) := panel_simple_enable e p w in
               r = 0 -> panel_simple_enable e p1 w1 = (0, p1, w1)).
  { pose proof (enable_success_enabled e p w) as Hs.
    destruct (panel_simple_enable e p w) as [[r p1] w1]. cbn [fst snd] in Hs.
    intros Hr. apply enable_when_enabled. auto. }
  assert (Hd : let '(r, p1, w1) := panel_simple_disable e p w in
               panel_simple_disable e p1 w1 = (0, p1, w1)).
  { pose proof (disable_leaves_disabled e p w) as Hs.
    destruct (panel_simple_disable e p w) as [[r p1] w1]. cbn [fst snd] in Hs.
    apply disable_when_disabled. auto. }
  refine (conj _ (conj _ (conj He (conj Hd (conj _ _))))).
  - apply enable_when_enabled.
  - apply disable_when_disabled.
  - cbn [call_funcs call_func]. unfold bind, ret.
    destruct (panel_simple_enable e p w) as [[r p1] w1]. cbn [fst snd].
    intros Hr. rewrite (He Hr). reflexivity.
  - cbn [call_funcs call_func]. unfold bind, ret.
    destruct (panel_simple_disable e p w) as [[r p1] w1]. cbn [fst snd].
    rewrite Hd. reflexivity.
Qed.

Lemma enable_disable_idempotent_witness :
  let p_on := set_enabled sc20_panel true in
  @panel_simple_enable linux_headers env_ok p_on world0 = (0, p_on, world0) /\
  @panel_simple_disable linux_headers env_ok sc20_panel world0
    = (0, sc20_panel, world0) /\
  @call_funcs linux_headers env_ok [f_enable; f_enable] sc20_panel world0
    = @call_funcs linux_headers env_ok [f_enable] sc20_panel world0.
Proof.
  intros p_on. split; [|split].
  - apply (proj1 (@enable_disable_idempotent linux_headers env_ok
                    p_on world0)).
    reflexivity.
  - apply (proj1 (proj2 (@enable_disable_idempotent linux_headers env_ok
                           sc20_panel world0))).
    reflexivity.
  - apply (proj1 (proj2 (proj2 (proj2 (proj2
             (@enable_disable_idempotent linux_headers env_ok
                sc20_panel world0)))))).
    reflexivity.
Defined.

(** C4: when the regulator call of enable() fails, enable() returns that
    error, the panel stays disabled, and the only calls made are the
    regulator call and the log message: no GPIO and no backlight call, and
    no backlight power field is written. *)
Theorem enable_supply_failure_stays_disabled
    {H : kernel_headers} (e : env) (p : panel_simple) (w : world) :
  enabled p = false ->
  regulator_enable_ret e (calls w ++ [c_regulator_enable (supply p)]) < 0 ->
  let '(r, p', w') := panel_simple_enable e p w in
  r = regulator_enable_ret e (calls w ++ [c_regulator_enable (supply p)]) /\
  p' = p /\ enabled p' = false /\
  calls w' = calls w ++ [c_regulator_enable (supply p);
                         c_dev_err "failed to enable supply: %d\n"] /\
  filter is_gpio_or_backlight (calls w')
    = filter is_gpio_or_backlight (calls w) /\
  props_power w' = props_power w.
Proof.
  intros Hp Hreg.
  destruct (enable_supply_failure e p w Hp Hreg)
    as (w' & -> & Hc & _ & _ & Hpw).
  repeat split; auto.
  rewrite Hc, filter_app. cbn [filter is_gpio_or_backlight].
  apply app_nil_r.
Qed.

Lemma enable_supply_failure_stays_disabled_witness :
  let '(r, p', w') :=
    @panel_simple_enable linux_headers env_supply_fails sc20_panel world0 in
  r = -5 /\ p' = sc20_panel /\ enabled p' = false /\
  calls w' = [c_regulator_enable 1;
              c_dev_err "failed to enable supply: %d\n"] /\
  filter is_gpio_or_backlight (calls w') = [] /\
  props_power w' = props_power world0.
Proof.
  apply (@enable_supply_failure_stays_disabled linux_headers
           env_supply_fails sc20_panel world0).
  - reflexivity.
  - reflexivity.
Defined.

(** C5: with a valid enable GPIO, enable() writes the line once, 0 if the
    panel is active low and 1 if not, and disable() writes it once, 1 if
    the panel is active low and 0 if not: the two polarities give inverted
    levels.  A panel is active low exactly when the probe found
    OF_GPIO_ACTIVE_LOW in the flags of its "enable-gpios". *)
Theorem enable_gpio_polarity
    {H : kernel_headers} (e : env) (p : panel_simple) (w : world) :
  gpio_is_valid (enable_gpio p) = true ->
  (enabled p = false ->
   0 <= regulator_enable_ret e (calls w ++ [c_regulator_enable (supply p)]) ->
   gpio_writes (calls (snd (panel_simple_enable e p w)))
     = gpio_writes (calls w)
       ++ [(enable_gpio p,
            if c_true (Z.land (enable_gpio_flags p) GPIO_ACTIVE_LOW)
            then 0 else 1)]) /\
  (enabled p = true ->
   gpio_writes (calls (snd (panel_simple_disable e p w)))
     = gpio_writes (calls w)
       ++ [(enable_gpio p,
            if c_true (Z.land (enable_gpio_flags p) GPIO_ACTIVE_LOW)
            then 1 else 0)]) /\
  (forall np d w0,
     snd (fst (panel_simple_probe e np d w0)) = Some p ->
     c_true (Z.land (enable_gpio_flags p) GPIO_ACTIVE_LOW)
       = c_true (Z.land (enable_gpios_flags np) OF_GPIO_ACTIVE_LOW)).
Proof.
  intros Hv. split; [|split].
  - intros Hp Hreg.
    destruct (enable_when_disabled e p w Hp Hreg) as (w' & -> & Hc & _).
    cbn [snd]. rewrite Hc, gpio_writes_app. f_equal.
    unfold enable_calls, gpio_calls, backlight_calls, active_low.
    rewrite Hv. destruct (backlight p); reflexivity.
  - intros Hp.
    destruct (disable_when_enabled e p w Hp) as (w' & -> & Hc & _).
    cbn [snd]. rewrite Hc, gpio_writes_app. f_equal.
    unfold disable_calls, gpio_calls, backlight_calls, active_low.
    rewrite Hv. destruct (backlight p); reflexivity.
  - intros np d w0 Hprobe.
    destruct (panel_simple_probe_polarity e np d w0 Hprobe) as (Hg & Hf).
    rewrite Hf, <- Hg, Hv. reflexivity.
Qed.

Lemma enable_gpio_polarity_witness :
  gpio_writes (calls (snd (@panel_simple_enable linux_headers env_ok
                             sc20_panel_active_low world0))) = [(12, 0)] /\
  gpio_writes (calls (snd (@panel_simple_disable linux_headers env_ok
                             (set_enabled sc20_panel_active_low true)
                             world0))) = [(12, 1)] /\
  gpio_writes (calls (snd (@panel_simple_enable linux_headers env_ok
                             sc20_panel world0))) = [(12, 1)] /\
  gpio_writes (calls (snd (@panel_simple_disable linux_headers env_ok
                             (set_enabled sc20_panel true)
                             world0))) = [(12, 0)] /\
  c_true (Z.land (enable_gpio_flags sc20_panel_active_low) GPIO_ACTIVE_LOW)
    = true.
Proof.
  split; [|split; [|split; [|split]]].
  - apply (proj1 (@enable_gpio_polarity linux_headers env_ok
                    sc20_panel_active_low world0 eq_refl)).
    + reflexivity.
    + cbn. lia.
  - apply (proj1 (proj2 (@enable_gpio_polarity linux_headers env_ok
                    (set_enabled sc20_panel_active_low true) world0
                    eq_refl))).
    reflexivity.
  - apply (proj1 (@enable_gpio_polarity linux_headers env_ok
                    sc20_panel world0 eq_refl)).
    + reflexivity.
    + cbn. lia.
  - apply (proj1 (proj2 (@enable_gpio_polarity linux_headers env_ok
                    (set_enabled sc20_panel true) world0 eq_refl))).
    reflexivity.
  - rewrite (proj2 (proj2 (@enable_gpio_polarity linux_headers env_ok
                             sc20_panel_active_low world0 eq_refl))
               sc20_node_active_low
               (Some (dsi_desc (@sc20_ili9881c linux_headers))) world0).
    + reflexivity.
    + vm_compute. reflexivity.
Defined.

(** C6: get_modes has no failing path: it returns the number of modes
    drm_add_edid_modes() added from the EDID (none when the EDID path is
    not taken) plus the number of descriptor modes it put on the connector,
    the sum being taken in the 32-bit types of the code, so that it is
    their plain sum whenever that fits an int.  Every descriptor mode is
    tried; exactly the modes whose own drm_mode_duplicate() call succeeded
    are added, in descriptor order, after the EDID modes; a failed
    duplication is logged and skipped and the modes after it are still
    tried.  The connector's width and height are the descriptor's, whatever
    the count. *)
Theorem get_modes_count (e : env) (p : panel_simple) (w : world) :
  exists new copied,
    let '(n, w') := panel_simple_get_modes e p w in
    calls w' = calls w ++ edid_calls e p w ++ new /\
    modes_added new = copied /\
    probed_modes (connector w')
      = probed_modes (connector w) ++ edid_modes e p w ++ copied /\
    n = to_int (to_int (edid_modes_added e p w)
                + to_int (to_uint (Z.of_nat (List.length copied)))) /\
    (Z.of_nat (List.length (edid_modes e p w))
       + Z.of_nat (List.length copied) < 2 ^ 31 ->
     n = Z.of_nat (List.length (edid_modes e p w))
         + Z.of_nat (List.length copied)) /\
    match desc p with
    | Some d =>
        width_mm (connector w') = width (size d) /\
        height_mm (connector w') = height (size d) /\
        modes_duplicated new = modes d /\
        copied = kept (modes d)
                   (duplicate_answers e (calls w ++ edid_calls e p w)
                      (modes d)) /\
        (List.length (filter is_dev_err new) + List.length copied
         = List.length (modes d))%nat /\
        ((forall h, drm_mode_duplicate_ret e h = true) -> copied = modes d) /\
        ((forall h, drm_mode_duplicate_ret e h = false) -> copied = [])
    | None =>
        copied = [] /\
        width_mm (connector w') = width_mm (connector w) /\
        height_mm (connector w') = height_mm (connector w)
    end.
Proof.
  destruct (get_modes_effect e p w) as (new & copied & E).
  destruct (get_modes_order e p w) as (new' & Hc' & Hk & _).
  exists new, copied.
  destruct (panel_simple_get_modes e p w) as [n w']. cbn [snd] in Hc'.
  destruct E as (Hc & _ & _ & _ & Hpm & _ & Hma & Hn & Hd).
  rewrite Hc in Hc'. apply app_inv_head in Hc'. apply app_inv_head in Hc'.
  subst new'.
  split; [exact Hc|]. split; [exact Hma|]. split; [exact Hpm|].
  split; [exact Hn|]. split.
  - intros Hfit. rewrite Hn. unfold edid_modes_added.
    rewrite (to_int_small (z := Z.of_nat (List.length (edid_modes e p w))))
      by lia.
    rewrite (to_int_small (z := Z.of_nat (List.length (edid_modes e p w))))
      by lia.
    rewrite (to_uint_small (z := Z.of_nat (List.length copied))) by lia.
    rewrite (to_int_small (z := Z.of_nat (List.length copied))) by lia.
    apply to_int_small. lia.
  - destruct (desc p) as [d|].
    + destruct Hd as (Hw & Hh & Hdup & Hlog & Hall & Hnone).
      specialize (Hk d eq_refl). rewrite Hma in Hk.
      repeat (split; [assumption|]). assumption.
    + destruct Hd as (_ & Hd). exact Hd.
Qed.

Lemma get_modes_count_witness :
  (let '(n, w') :=
     panel_simple_get_modes env_edid sc20_panel_ddc world0 in
   n = 4 /\
   probed_modes (connector w')
     = [lg_lh500wx1_sd03_mode; panasonic_vvx10f004b00_mode;
        lg_lh500wx1_sd03_mode; sc20_ili9881c_mode] /\
   width_mm (connector w') = 59 /\ height_mm (connector w') = 104) /\
  (let '(n, w') :=
     panel_simple_get_modes env_second_duplicate_fails three_mode_panel
       world0 in
   n = 2 /\
   probed_modes (connector w')
     = [sc20_ili9881c_mode; panasonic_vvx10f004b00_mode]).
Proof.
  split.
  - destruct (get_modes_count env_edid sc20_panel_ddc world0)
      as (new & copied & T).
    destruct (panel_simple_get_modes env_edid sc20_panel_ddc world0)
      as [n w'].
    cbn [desc sc20_panel_ddc set_ddc sc20_panel] in T.
    destruct T as (_ & _ & Hpm & _ & Hn & Hw & Hh & _ & Hk & _).
    vm_compute in Hk. subst copied.
    split; [apply Hn; vm_compute; reflexivity|].
    split; [rewrite Hpm; reflexivity|]. split; assumption.
  - destruct (get_modes_count env_second_duplicate_fails three_mode_panel
                world0) as (new & copied & T).
    destruct (panel_simple_get_modes env_second_duplicate_fails
                three_mode_panel world0) as [n w'].
    cbn [desc three_mode_panel] in T.
    destruct T as (_ & _ & Hpm & _ & Hn & _ & _ & _ & Hk & _).
    vm_compute in Hk. subst copied.
    split; [apply Hn; vm_compute; reflexivity|].
    rewrite Hpm. reflexivity.
Defined.

(** C7 does not hold of the DSI probe: when mipi_dsi_attach() fails, the
    probe returns the error while the GPIO, the backlight, the DDC adapter
    and the panel registration are still held, and no releasing call has
    been made. *)
Theorem dsi_probe_attach_failure_leaks :
  let '(err, _, _, w') :=
    @panel_simple_dsi_probe linux_headers env_attach_fails sc20_dsi_ddc
      world0 in
  err = -38 /\
  held world0 = [] /\
  held w' = [r_panel; r_i2c_adapter 7; r_backlight 3; r_gpio 12] /\
  filter is_release (calls w') = [].
Proof.
  vm_compute. repeat split.
Qed.

(** C8: whatever mipi_dsi_dcs_write() answers, a DSI probe that gets past
    panel_simple_probe transmits every write of the script, in source
    order, then calls mipi_dsi_attach() and returns its result; the run is
    the one made with any other answers to the writes.  enable() does not
    look at these answers either. *)
Theorem init_script_ignores_write_errors
    {H : kernel_headers} (e : env) (f : list call -> Z)
    (dsi : mipi_dsi_device) (w : world)
    (d : panel_desc_dsi) (err : Z) (panel : option panel_simple)
    (w1 : world) :
  of_match_node dsi_of_match (of_node dsi) = Some d ->
  panel_simple_probe e (of_node dsi) (Some (dsi_desc d)) w
    = (err, panel, w1) ->
  0 <= err ->
  let '(r, _, panel', w') :=
    panel_simple_dsi_probe (with_dcs_write_ret f e) dsi w in
  calls w' = calls w1
    ++ map dcs_call ili9881c_on_cmds ++ [c_msleep 1]
    ++ map dcs_call ili9881c_display_on ++ [c_mipi_dsi_attach] /\
  r = mipi_dsi_attach_ret e (calls w') /\
  panel' = panel /\
  panel_simple_dsi_probe (with_dcs_write_ret f e) dsi w
    = panel_simple_dsi_probe e dsi w /\
  (forall p w2,
     panel_simple_enable (with_dcs_write_ret f e) p w2
       = panel_simple_enable e p w2).
Proof.
  intros Hm Hprobe Herr.
  rewrite dsi_probe_any_write_answer.
  destruct (dsi_probe_after_probe e dsi w Hm Hprobe Herr)
    as (w' & -> & Hc & _).
  split.
  - rewrite Hc. unfold init_script_calls. rewrite <- !app_assoc.
    reflexivity.
  - split; [rewrite Hc; reflexivity|].
    split; [reflexivity|]. split; reflexivity.
Qed.

Lemma init_script_ignores_write_errors_witness :
  let '(r, _, panel', w') :=
    @panel_simple_dsi_probe linux_headers
      (with_dcs_write_ret (fun _ => -5) env_ok) sc20_dsi world0 in
  r = 0 /\ panel' = Some sc20_panel /\
  List.length (filter is_dcs_write (calls w')) = 189%nat.
Proof.
  assert (Hm : @of_match_node (@dsi_of_match linux_headers)
                 (of_node sc20_dsi)
               = Some (@sc20_ili9881c linux_headers)) by reflexivity.
  pose (X := @panel_simple_probe linux_headers env_ok (of_node sc20_dsi)
               (Some (dsi_desc (@sc20_ili9881c linux_headers))) world0).
  assert (Hp : X = (0, Some sc20_panel, snd X)) by (vm_compute; reflexivity).
  assert (Herr : 0 <= 0) by lia.
  pose proof (@init_script_ignores_write_errors linux_headers env_ok
                (fun _ => -5) sc20_dsi world0 _ _ _ _ Hm Hp Herr) as T.
  destruct (@panel_simple_dsi_probe linux_headers
              (with_dcs_write_ret (fun _ => -5) env_ok) sc20_dsi world0)
    as [[[r dsi'] panel'] w'].
  destruct T as (Hc & Hr & Hpanel & _).
  split; [rewrite Hr; reflexivity|]. split; [exact Hpanel|].
  rewrite Hc. vm_compute. reflexivity.
Defined.

(** C9: disable() returns 0 in every state and whatever the backlight,
    GPIO and regulator calls do: no return value of a collaborator is read,
    so two environments give the same run. *)
Theorem disable_always_returns_0
    {H : kernel_headers} (e e' : env) (p : panel_simple) (w : world) :
  fst (fst (panel_simple_disable e p w)) = 0 /\
  panel_simple_disable e p w = panel_simple_disable e' p w.
Proof.
  split; [apply disable_returns_0|].
  run_kernel.
  destruct (enabled p); cbn [negb]; [|reflexivity].
  destruct (backlight p) as [bl|];
    destruct (gpio_is_valid (enable_gpio p));
    destruct (c_true (Z.land (enable_gpio_flags p) GPIO_ACTIVE_LOW));
    reflexivity.
Qed.

(** C10: with a DDC bus, get_modes calls
    drm_mode_connector_update_edid_property() with whatever drm_get_edid()
    returned, NULL included, and the connector's EDID blob becomes that
    value; drm_add_edid_modes() is called only for a non-NULL EDID.
    Without a DDC bus no EDID call is made and the blob is left alone. *)
Theorem get_modes_edid_property (e : env) (p : panel_simple) (w : world) :
  exists new,
    calls (snd (panel_simple_get_modes e p w)) = calls w ++ new /\
    match ddc p with
    | Some bus =>
        let ed := drm_get_edid_ret e (calls w ++ [c_drm_get_edid bus]) in
        edid_blob (connector (snd (panel_simple_get_modes e p w))) = ed /\
        filter is_edid_call new =
          [c_drm_get_edid bus; c_drm_mode_connector_update_edid_property ed]
          ++ match ed with
             | Some blob => [c_drm_add_edid_modes blob]
             | None => []
             end
    | None =>
        edid_blob (connector (snd (panel_simple_get_modes e p w)))
          = edid_blob (connector w) /\
        filter is_edid_call new = []
    end.
Proof.
  destruct (get_modes_effect e p w) as (new & copied & E).
  exists (edid_calls e p w ++ new).
  destruct (panel_simple_get_modes e p w) as [n w']. cbn [snd].
  destruct E as (Hc & _ & _ & Hed & _ & Hne & _).
  split; [exact Hc|].
  rewrite filter_app, Hne, app_nil_r.
  unfold edid_calls.
  destruct (ddc p) as [bus|].
  - split; [exact Hed|].
    destruct (drm_get_edid_ret e (calls w ++ [c_drm_get_edid bus]));
      reflexivity.
  - split; [exact Hed | reflexivity].
Qed.

(** * Further properties of the driver *)

(** ** enable and disable *)

Section PowerField.
Context {H : kernel_headers}.
Variable e : env.

(** The backlight power field after an enable that goes through. *)
Lemma enable_power_field p w :
  enabled p = false ->
  0 <= regulator_enable_ret e (calls w ++ [c_regulator_enable (supply p)]) ->
  forall b,
    props_power (snd (panel_simple_enable e p w)) b
      = power_written p FB_BLANK_UNBLANK (props_power w) b.
Proof.
  intros Hp Hreg b. run_kernel. rewrite Hp. cbn [calls].
  apply Z.ltb_ge in Hreg. rewrite Hreg. unfold power_written.
  destruct (backlight p) as [bl|];
    destruct (gpio_is_valid (enable_gpio p));
    destruct (c_true (Z.land (enable_gpio_flags p) GPIO_ACTIVE_LOW));
    reflexivity.
Qed.

(** The backlight power field after a disable of an enabled panel. *)
Lemma disable_power_field p w :
  enabled p = true ->
  forall b,
    props_power (snd (panel_simple_disable e p w)) b
      = power_written p FB_BLANK_POWERDOWN (props_power w) b.
Proof.
  intros Hp b. run_kernel. rewrite Hp. cbn [negb]. unfold power_written.
  destruct (backlight p) as [bl|];
    destruct (gpio_is_valid (enable_gpio p));
    destruct (c_true (Z.land (enable_gpio_flags p) GPIO_ACTIVE_LOW));
    reflexivity.
Qed.

Lemma power_written_twice p v1 v2 old b :
  power_written p v2 (power_written p v1 old) b = power_written p v2 old b.
Proof.
  unfold power_written. destruct (backlight p) as [bl|]; [|reflexivity].
  destruct (b =? bl); reflexivity.
Qed.

Lemma set_enabled_back p :
  enabled p = false -> set_enabled (set_enabled p true) false = p.
Proof.
  destruct p as [en d bl s dd fl g]. cbn. intros ->. reflexivity.
Qed.

(** One call of the function set keeps the panel's resources and the
    references held, and only adds to the history. *)
Lemma call_func_keeps f p w :
  same_resources p (snd (fst (call_func e f p w))) /\
  held (snd (call_func e f p w)) = held w /\
  exists new, calls (snd (call_func e f p w)) = calls w ++ new.
Proof.
  assert (Hrefl : forall q, same_resources q q)
    by (intros q; repeat split).
  assert (Hset : forall q b, same_resources q (set_enabled q b))
    by (intros q b; repeat split).
  destruct f; cbn [call_func].
  - destruct (enabled p) eqn:Hp.
    + destruct (disable_when_enabled e p w Hp) as (w' & -> & Hc & Hh & _).
      cbn [fst snd]. eauto.
    + rewrite disable_when_disabled by assumption. cbn [fst snd].
      split; [auto|]. split; [auto|]. exists []. symmetry. apply app_nil_r.
  - destruct (enabled p) eqn:Hp.
    + rewrite enable_when_enabled by assumption. cbn [fst snd].
      split; [auto|]. split; [auto|]. exists []. symmetry. apply app_nil_r.
    + destruct (Z_lt_le_dec
        (regulator_enable_ret e (calls w ++ [c_regulator_enable (supply p)]))
        0) as [Hneg | Hpos].
      * destruct (enable_supply_failure e p w Hp Hneg)
          as (w' & -> & Hc & Hh & _).
        cbn [fst snd]. eauto.
      * destruct (enable_when_disabled e p w Hp Hpos)
          as (w' & -> & Hc & Hh & _).
        cbn [fst snd]. eauto.
  - unfold bind, ret.
    destruct (get_modes_effect e p w) as (new & copied & E).
    destruct (panel_simple_get_modes e p w) as [n w']. cbn [fst snd].
    destruct E as (Hc & Hh & _).
    split; [auto|]. split; [auto|]. eauto.
Qed.

Lemma call_funcs_keeps fs : forall p w,
  same_resources p (fst (call_funcs e fs p w)) /\
  held (snd (call_funcs e fs p w)) = held w /\
  exists new, calls (snd (call_funcs e fs p w)) = calls w ++ new.
Proof.
  induction fs as [|f fs IH]; intros p w.
  - cbn [call_funcs]. unfold ret. cbn [fst snd].
    split; [repeat split|]. split; [reflexivity|].
    exists []. symmetry. apply app_nil_r.
  - cbn [call_funcs]. unfold bind.
    destruct (call_func_keeps f p w) as (Hs & Hh & new & Hc).
    destruct (call_func e f p w) as [r w1]. cbn [fst snd] in *.
    destruct (IH (snd r) w1) as (Hs' & Hh' & new' & Hc').
    split.
    + unfold same_resources in *.
      destruct Hs as (? & ? & ? & ? & ? & ?).
      destruct Hs' as (? & ? & ? & ? & ? & ?).
      repeat split; congruence.
    + split; [congruence|].
      exists (new ++ new'). rewrite Hc', Hc. symmetry. apply app_assoc.
Qed.

End PowerField.

(** X1: an enable that goes through followed by a disable gives back the
    panel struct it started from, with both calls returning 0; the history
    grows by the power-up calls and then the power-down calls, the
    backlight's power field goes to unblank and ends at powerdown, no other
    backlight's field changes, and the references held and the connector
    are as before. *)
Theorem enable_then_disable_restores
    {H : kernel_headers} (e : env) (p : panel_simple) (w : world) :
  enabled p = false ->
  0 <= regulator_enable_ret e (calls w ++ [c_regulator_enable (supply p)]) ->
  let '(r1, p1, w1) := panel_simple_enable e p w in
  let '(r2, p2, w2) := panel_simple_disable e p1 w1 in
  r1 = 0 /\ r2 = 0 /\ enabled p1 = true /\ p2 = p /\
  calls w2 = calls w ++ enable_calls p ++ disable_calls p /\
  held w2 = held w /\ connector w2 = connector w /\
  (forall b, props_power w1 b
             = power_written p FB_BLANK_UNBLANK (props_power w) b) /\
  (forall b, props_power w2 b
             = power_written p FB_BLANK_POWERDOWN (props_power w) b).
Proof.
  intros Hp Hreg.
  pose proof (enable_power_field e p w Hp Hreg) as Hpw1.
  destruct (enable_when_disabled e p w Hp Hreg)
    as (w1 & He & Hc1 & Hh1 & Hco1).
  rewrite He in *. cbn [snd] in Hpw1.
  assert (Hon : enabled (set_enabled p true) = true) by reflexivity.
  pose proof (disable_power_field e (set_enabled p true) w1 Hon) as Hpw2.
  destruct (disable_when_enabled e (set_enabled p true) w1 Hon)
    as (w2 & Hd & Hc2 & Hh2 & Hco2).
  rewrite Hd in *. cbn [snd] in Hpw2.
  split; [reflexivity|]. split; [reflexivity|]. split; [reflexivity|].
  split; [apply set_enabled_back; exact Hp|].
  split; [rewrite Hc2, Hc1, <- app_assoc; reflexivity|].
  split; [congruence|]. split; [congruence|].
  split; [exact Hpw1|].
  intros b. rewrite Hpw2.
  change (power_written (set_enabled p true)) with (power_written p).
  unfold power_written.
  destruct (backlight p) as [bl|] eqn:Hbl.
  - destruct (b =? bl) eqn:Hb; [reflexivity|].
    rewrite Hpw1. unfold power_written. rewrite Hbl, Hb. reflexivity.
  - rewrite Hpw1. unfold power_written. rewrite Hbl. reflexivity.
Qed.

Lemma enable_then_disable_restores_witness :
  let '(r1, p1, w1) :=
    @panel_simple_enable linux_headers env_ok sc20_panel world0 in
  let '(r2, p2, w2) :=
    @panel_simple_disable linux_headers env_ok p1 w1 in
  p2 = sc20_panel /\
  calls w2 = [c_regulator_enable 1; c_gpio_set_value 12 1;
              c_backlight_update_status 3 0;
              c_backlight_update_status 3 4; c_gpio_set_value 12 0;
              c_regulator_disable 1] /\
  props_power w1 3 = 0 /\ props_power w2 3 = 4 /\ props_power w2 5 = 0.
Proof.
  pose proof (@enable_then_disable_restores linux_headers env_ok sc20_panel
                world0 eq_refl) as T.
  assert (Hreg : 0 <= regulator_enable_ret env_ok
                        (calls world0
                         ++ [c_regulator_enable (supply sc20_panel)]))
    by (cbn; lia).
  specialize (T Hreg).
  destruct (@panel_simple_enable linux_headers env_ok sc20_panel world0)
    as [[r1 p1] w1].
  destruct (@panel_simple_disable linux_headers env_ok p1 w1)
    as [[r2 p2] w2].
  destruct T as (_ & _ & _ & Hp & Hc & _ & _ & Hpw1 & Hpw2).
  split; [exact Hp|]. split; [exact Hc|].
  rewrite Hpw1, !Hpw2. repeat split.
Defined.

(** X2: enable() never returns a positive value.  It returns a negative
    value exactly when the panel was disabled and regulator_enable()
    returned a negative value; the value returned is then that one and the
    panel struct is unchanged.  A positive result of regulator_enable() is
    taken as success. *)
Theorem enable_return_value
    {H : kernel_headers} (e : env) (p : panel_simple) (w : world) :
  let r := fst (fst (panel_simple_enable e p w)) in
  let reg :=
    regulator_enable_ret e (calls w ++ [c_regulator_enable (supply p)]) in
  r <= 0 /\
  (r < 0 <-> enabled p = false /\ reg < 0) /\
  (r < 0 -> r = reg /\ snd (fst (panel_simple_enable e p w)) = p) /\
  (enabled p = false -> 0 < reg ->
   r = 0 /\ enabled (snd (fst (panel_simple_enable e p w))) = true).
Proof.
  cbv zeta.
  destruct (enabled p) eqn:Hp.
  - rewrite enable_when_enabled by assumption. cbn [fst snd].
    repeat split; try lia; try discriminate.
  - destruct (Z_lt_le_dec
      (regulator_enable_ret e (calls w ++ [c_regulator_enable (supply p)]))
      0) as [Hneg | Hpos].
    + destruct (enable_supply_failure e p w Hp Hneg) as (w' & -> & _).
      cbn [fst snd]. repeat split; try lia.
    + destruct (enable_when_disabled e p w Hp Hpos) as (w' & -> & _).
      cbn [fst snd]. repeat split; try lia.
Qed.

(** X3: whatever sequence of enable(), disable() and get_modes() calls is
    made, and whatever they return, the panel struct changes in its
    [enabled] field only, the references held stay the same, and the
    history only grows. *)
Theorem call_sequence_keeps_resources
    {H : kernel_headers} (e : env) (fs : list panel_func)
    (p : panel_simple) (w : world) :
  let (p', w') := call_funcs e fs p w in
  same_resources p p' /\
  held w' = held w /\
  exists new, calls w' = calls w ++ new.
Proof.
  pose proof (call_funcs_keeps e fs p w) as K.
  destruct (call_funcs e fs p w) as [p' w']. exact K.
Qed.

(** ** remove *)

Lemma panel_refs_same {H : kernel_headers} p p' :
  same_resources p p' -> panel_refs p' = panel_refs p.
Proof.
  intros (_ & Hbl & _ & Hddc & _ & Hg). unfold panel_refs.
  rewrite Hbl, Hddc, Hg. reflexivity.
Qed.

Section Remove.
Context {H : kernel_headers}.
Variable e : env.

(** panel_simple_remove on a panel whose references are on top of what is
    held. *)
Lemma remove_effect p w h :
  held w = panel_refs p ++ h ->
  exists p' w',
    panel_simple_remove e p w = (0, p', w') /\
    enabled p' = false /\ same_resources p p' /\
    held w' = h /\
    calls w' = calls w
      ++ [c_drm_panel_detach; c_drm_panel_remove]
      ++ (if enabled p then disable_calls p else [])
      ++ release_calls p.
Proof.
  intros Hh.
  unfold panel_refs in Hh.
  unfold release_calls, disable_calls, backlight_calls, gpio_calls,
    active_low.
  cbv [panel_simple_remove panel_simple_disable drm_panel_detach
       drm_panel_remove put_device gpio_free regulator_disable
       gpio_set_value backlight_update_status set_props_power
       get_props_power release set_held bind ret emit ask].
  cbn [calls held]. rewrite Hh. clear Hh.
  destruct (enabled p) eqn:Hp; cbn [negb];
    destruct (backlight p) as [bl|] eqn:Hbl;
    destruct (ddc p) as [adap|] eqn:Hddc;
    destruct (gpio_is_valid (enable_gpio p)) eqn:Hv;
    destruct (c_true (Z.land (enable_gpio_flags p) GPIO_ACTIVE_LOW));
    cbn [snd fst calls held connector props_power
         ddc backlight enable_gpio set_enabled];
    rewrite ?Hbl, ?Hddc, ?Hv;
    cbn [snd fst calls held connector props_power];
    (eexists; eexists; split; [reflexivity|]);
    cbn [calls held enabled set_enabled];
    (split; [solve [auto]|]);
    (split; [repeat split; solve [auto]|]);
    (split; [refs_done|]);
    rewrite <- ?app_assoc, ?Z.eqb_refl; cbn [app]; reflexivity.
Qed.

End Remove.



(** X5: a panel bound by panel_simple_probe, used through any sequence of
    enable(), disable() and get_modes() calls and then removed, leaves
    exactly the references that were held before the probe; the remove
    returns 0 and the panel ends disabled. *)
Theorem probe_use_remove_balanced
    {H : kernel_headers} (e : env) (np : device_node)
    (d : option panel_desc) (w : world) (fs : list panel_func)
    (err : Z) (p : panel_simple) (w1 : world) :
  panel_simple_probe e np d w = (err, Some p, w1) ->
  let (p2, w2) := call_funcs e fs p w1 in
  let '(r, p3, w3) := panel_simple_remove e p2 w2 in
  r = 0 /\ enabled p3 = false /\ held w3 = held w.
Proof.
  intros Hprobe.
  pose proof (panel_simple_probe_balance e np d w) as Hb.
  rewrite Hprobe in Hb. destruct Hb as (_ & _ & _ & _ & Hh1).
  pose proof (call_funcs_keeps e fs p w1) as (Hs & Hh2 & _).
  destruct (call_funcs e fs p w1) as [p2 w2]. cbn [fst snd] in *.
  assert (Hh : held w2 = panel_refs p2 ++ held w).
  { rewrite Hh2, Hh1, (panel_refs_same Hs). reflexivity. }
  destruct (@remove_effect H e p2 w2 (held w) Hh)
    as (p3 & w3 & -> & He & _ & Hh3 & _).
  auto.
Qed.

Lemma probe_use_remove_balanced_witness :
  let '(_, panel, w1) :=
    @panel_simple_probe linux_headers env_ok sc20_node_ddc None world0 in
  match panel with
  | Some p =>
      let (p2, w2) :=
        @call_funcs linux_headers env_ok [f_enable; f_get_modes] p w1 in
      let '(r, p3, w3) := @panel_simple_remove linux_headers env_ok p2 w2 in
      r = 0 /\ enabled p3 = false /\ held w3 = []
  | None => False
  end.
Proof.
  pose (X := @panel_simple_probe linux_headers env_ok sc20_node_ddc None
               world0).
  assert (Hp : X = (0, Some (set_desc sc20_panel_ddc None), snd X))
    by (vm_compute; reflexivity).
  pose proof (@probe_use_remove_balanced linux_headers env_ok sc20_node_ddc
                None world0 [f_enable; f_get_modes] _ _ _ Hp) as T.
  fold X. rewrite Hp. exact T.
Defined.



(** ** The probe *)

Lemma gpio_directions_app l1 l2 :
  gpio_directions (l1 ++ l2) = gpio_directions l1 ++ gpio_directions l2.
Proof.
  induction l1 as [|c l1 IH]; [reflexivity|].
  destruct c; cbn [app gpio_directions]; rewrite IH; reflexivity.
Qed.

Section ProbeMore.
Context {H : kernel_headers}.
Variable e : env.

(** The probe switches nothing on and sends nothing; it leaves connector
    and backlight fields alone. *)
Lemma panel_simple_probe_quiet np d w :
  exists new,
    calls (snd (panel_simple_probe e np d w)) = calls w ++ new /\
    filter is_power_call new = [] /\
    connector (snd (panel_simple_probe e np d w)) = connector w /\
    props_power (snd (panel_simple_probe e np d w)) = props_power w.
Proof.
  probe_unfold.
  repeat probe_case;
    (eexists; split;
     [rewrite <- ?app_assoc; cbn [app]; reflexivity|]);
    repeat split.
Qed.

(** The level the probe drives the enable GPIO to. *)
Lemma panel_simple_probe_gpio_level np d w p :
  snd (fst (panel_simple_probe e np d w)) = Some p ->
  exists new,
    calls (snd (panel_simple_probe e np d w)) = calls w ++ new /\
    gpio_directions new =
      if gpio_is_valid (enable_gpios np)
      then [(enable_gpios np,
             if c_true (Z.land (enable_gpios_flags np) OF_GPIO_ACTIVE_LOW)
             then 1 else 0)]
      else [].
Proof.
  probe_unfold.
  repeat probe_case; intros Hp; try discriminate;
    try match goal with
        | Hx : c_true _ = _ |- _ => solve [vm_compute in Hx; discriminate]
        end;
    (eexists; split;
     [rewrite <- ?app_assoc; cbn [app]; reflexivity|]);
    reflexivity.
Qed.

(** A lookup of the backlight or of the DDC adapter that finds no device:
    the probe defers and holds nothing more. *)
Lemma panel_simple_probe_defer_at_lookup np d w :
  let '(err, panel, w') := panel_simple_probe e np d w in
  exists new,
    calls w' = calls w ++ new /\
    (backlight_lookup e (calls w) new = Some None ->
     err = - EPROBE_DEFER /\ panel = None /\ held w' = held w) /\
    (adapter_lookup e (calls w) new = Some None ->
     err = - EPROBE_DEFER /\ panel = None /\ held w' = held w) /\
    (forall p, panel = Some p ->
       backlight_lookup e (calls w) new
         = match backlight_phandle np with
           | Some _ => Some (backlight p)
           | None => None
           end /\
       adapter_lookup e (calls w) new
         = match ddc_i2c_bus np with
           | Some _ => Some (ddc p)
           | None => None
           end).
Proof.
  probe_unfold.
  repeat probe_case;
    (eexists; split;
     [rewrite <- ?app_assoc; cbn [app]; reflexivity|]);
    cbn [backlight_lookup adapter_lookup];
    (split;
     [ intros Hl; try discriminate Hl; injection Hl as Hl;
       try congruence; repeat (split; [reflexivity|]); refs_done
     | split;
       [ intros Hl; try discriminate Hl; injection Hl as Hl;
         try congruence; repeat (split; [reflexivity|]); refs_done
       | intros p Hp; try discriminate Hp; injection Hp as <-;
         cbn [backlight ddc set_backlight set_ddc set_enable_gpio_flags
              set_enable_gpio set_supply set_desc kzalloc_panel];
         split; congruence ] ]).
Qed.

End ProbeMore.

(** X7: panel_simple_probe is all or nothing.  If it returns no panel, the
    references held are those held before.  If it returns a panel, the
    result is 0, the panel is disabled, carries the descriptor passed in
    and the GPIO number of the device tree, and what is held on top is
    exactly the panel's references: the registration, the DDC adapter and
    the backlight it found, and the GPIO if its number is valid. *)
Theorem probe_all_or_nothing
    {H : kernel_headers} (e : env) (np : device_node)
    (d : option panel_desc) (w : world) :
  let '(err, panel, w') := panel_simple_probe e np d w in
  match panel with
  | None => held w' = held w
  | Some p =>
      err = 0 /\ enabled p = false /\ desc p = d /\
      enable_gpio p = enable_gpios np /\
      held w' = panel_refs p ++ held w
  end.
Proof.
  exact (panel_simple_probe_balance e np d w).
Qed.

(** X8: when the probe looks up the backlight, or the DDC adapter, named
    in the device tree and that lookup finds no device, it returns
    -EPROBE_DEFER with no panel and holds what was held before, whatever
    the lookup would answer at another time.  A probe that returns a panel
    made each lookup the device tree asks for and carries what it found. *)
Theorem probe_defers_for_missing_device
    {H : kernel_headers} (e : env) (np : device_node)
    (d : option panel_desc) (w : world) :
  let '(err, panel, w') := panel_simple_probe e np d w in
  exists new,
    calls w' = calls w ++ new /\
    (backlight_lookup e (calls w) new = Some None ->
     err = - EPROBE_DEFER /\ panel = None /\ held w' = held w) /\
    (adapter_lookup e (calls w) new = Some None ->
     err = - EPROBE_DEFER /\ panel = None /\ held w' = held w) /\
    (forall p, panel = Some p ->
       backlight_lookup e (calls w) new
         = match backlight_phandle np with
           | Some _ => Some (backlight p)
           | None => None
           end /\
       adapter_lookup e (calls w) new
         = match ddc_i2c_bus np with
           | Some _ => Some (ddc p)
           | None => None
           end).
Proof.
  exact (panel_simple_probe_defer_at_lookup e np d w).
Qed.

Lemma probe_defers_for_missing_device_witness :
  let '(err, panel, w1) :=
    @panel_simple_probe linux_headers env_backlight_later sc20_node_ddc
      None world0 in
  (err = -517 /\ panel = None /\ held w1 = []) /\
  let '(err2, panel2, w2) :=
    @panel_simple_probe linux_headers env_backlight_later sc20_node_ddc
      None w1 in
  err2 = 0 /\ panel2 = Some (set_desc sc20_panel_ddc None).
Proof.
  pose proof (@probe_defers_for_missing_device linux_headers
                env_backlight_later sc20_node_ddc None world0) as T.
  destruct (@panel_simple_probe linux_headers env_backlight_later
              sc20_node_ddc None world0) as [[err panel] w1] eqn:E.
  vm_compute in E. injection E as <- <- <-.
  destruct T as (new & Hc & Hbl & _).
  vm_compute in Hc. subst new.
  split.
  - apply Hbl. vm_compute. reflexivity.
  - vm_compute. split; reflexivity.
Defined.

(** X9: a successful probe configures a valid enable GPIO as an output
    exactly once, at the deasserted level (1 for an active-low panel, 0
    otherwise), which is the level disable() writes; with an invalid GPIO
    number it configures none.  The probe never sets the GPIO value,
    enables the regulator, updates a backlight or uses the DSI link, and it
    leaves the connector and the backlight power fields alone. *)
Theorem probe_leaves_panel_off
    {H : kernel_headers} (e : env) (np : device_node)
    (d : option panel_desc) (w : world) :
  exists new,
    calls (snd (panel_simple_probe e np d w)) = calls w ++ new /\
    filter is_power_call new = [] /\
    connector (snd (panel_simple_probe e np d w)) = connector w /\
    props_power (snd (panel_simple_probe e np d w)) = props_power w /\
    forall p,
      snd (fst (panel_simple_probe e np d w)) = Some p ->
      gpio_directions new =
        if gpio_is_valid (enable_gpio p)
        then [(enable_gpio p,
               if c_true (Z.land (enable_gpio_flags p) GPIO_ACTIVE_LOW)
               then 1 else 0)]
        else [].
Proof.
  destruct (panel_simple_probe_quiet e np d w)
    as (new & Hc & Hq & Hco & Hpw).
  exists new. repeat (split; [assumption|]).
  intros p Hp.
  destruct (panel_simple_probe_gpio_level e np d w Hp) as (new' & Hc' & Hg).
  rewrite Hc in Hc'. apply app_inv_head in Hc'. subst new'.
  destruct (panel_simple_probe_polarity e np d w Hp) as (Hgpio & Hlow).
  rewrite Hg, Hlow, Hgpio.
  destruct (gpio_is_valid (enable_gpios np)); reflexivity.
Qed.

(** ** The match table and the DSI probe *)

Lemma of_match_node_none table np :
  of_match_node table np = None <->
  ~ In (compatible np) (map fst table).
Proof.
  induction table as [|[c d] table IH]; cbn [of_match_node map fst In].
  - tauto.
  - destruct (String.eqb c (compatible np)) eqn:Hc.
    + apply String.eqb_eq in Hc. split; [discriminate|]. tauto.
    + apply String.eqb_neq in Hc. rewrite IH. tauto.
Qed.

Lemma of_match_node_in table np d :
  of_match_node table np = Some d -> In (compatible np, d) table.
Proof.
  induction table as [|[c d'] table IH]; cbn [of_match_node In].
  - discriminate.
  - destruct (String.eqb c (compatible np)) eqn:Hc.
    + apply String.eqb_eq in Hc. intros [= ->]. left. congruence.
    + intros Hm. right. auto.
Qed.

Lemma of_match_node_found table np c d :
  NoDup (map fst table) -> In (c, d) table -> compatible np = c ->
  of_match_node table np = Some d.
Proof.
  intros Hnd Hin <-.
  induction table as [|[c d'] table IH]; cbn [of_match_node In] in *.
  - destruct Hin.
  - cbn [map fst] in Hnd. inversion Hnd as [|? ? Hnotin Hnd']; subst.
    destruct Hin as [Heq | Hin].
    + injection Heq as -> ->. rewrite String.eqb_refl. reflexivity.
    + destruct (String.eqb c (compatible np)) eqn:Hc.
      * apply String.eqb_eq in Hc. subst c. exfalso. apply Hnotin.
        apply (in_map fst) in Hin. exact Hin.
      * auto.
Qed.

Lemma dsi_of_match_keys {H : kernel_headers} :
  NoDup (map fst dsi_of_match).
Proof.
  cbn [dsi_of_match map fst].
  repeat constructor; cbn [In]; intuition discriminate.
Qed.

(** X10: the match table has no shadowed entry: a node is matched exactly
    when its compatible string is one of the table's, and then to the
    descriptor listed with that string.  A DSI device whose compatible
    string is not in the table is refused with -ENODEV before any call is
    made: nothing is allocated, requested or sent. *)
Theorem match_table_lookup {H : kernel_headers} :
  (forall np d,
     of_match_node dsi_of_match np = Some d <->
     In (compatible np, d) dsi_of_match) /\
  (forall np,
     of_match_node dsi_of_match np = None <->
     ~ In (compatible np) (map fst dsi_of_match)) /\
  (forall e dsi w,
     ~ In (compatible (of_node dsi)) (map fst dsi_of_match) ->
     panel_simple_dsi_probe e dsi w = (- ENODEV, dsi, None, w)).
Proof.
  split; [|split].
  - intros np d. split.
    + apply of_match_node_in.
    + intros Hin.
      apply (@of_match_node_found dsi_of_match np (compatible np) d
               dsi_of_match_keys Hin eq_refl).
  - intros np. apply of_match_node_none.
  - intros e dsi w Hnot. apply of_match_node_none in Hnot.
    unfold panel_simple_dsi_probe. rewrite Hnot. reflexivity.
Qed.

(** X11: when panel_simple_probe fails, the DSI probe returns its error
    and stops there: the device's link parameters are not written, no DCS
    write, sleep or attach is made, and nothing more is held than before
    the probe. *)
Theorem dsi_probe_stops_at_probe_failure
    {H : kernel_headers} (e : env) (dsi : mipi_dsi_device) (w : world)
    (d : panel_desc_dsi) (err : Z) (panel : option panel_simple)
    (w1 : world) :
  of_match_node dsi_of_match (of_node dsi) = Some d ->
  panel_simple_probe e (of_node dsi) (Some (dsi_desc d)) w
    = (err, panel, w1) ->
  err < 0 ->
  panel_simple_dsi_probe e dsi w = (err, dsi, None, w1) /\
  held w1 = held w /\
  exists new, calls w1 = calls w ++ new /\ filter is_power_call new = [].
Proof.
  intros Hm Hprobe Herr.
  pose proof (panel_simple_probe_balance e (of_node dsi)
                (Some (dsi_desc d)) w) as Hb.
  pose proof (panel_simple_probe_quiet e (of_node dsi)
                (Some (dsi_desc d)) w) as (new & Hc & Hq & _).
  rewrite Hprobe in Hb, Hc. cbn [snd] in Hc.
  split; [|split].
  - unfold panel_simple_dsi_probe. rewrite Hm. unfold bind at 1.
    rewrite Hprobe. apply Z.ltb_lt in Herr. rewrite Herr. reflexivity.
  - destruct panel as [p|]; [|exact Hb].
    destruct Hb as (H0 & _). lia.
  - exists new. auto.
Qed.

Lemma dsi_probe_stops_at_probe_failure_witness :
  let '(err, dsi', panel, w') :=
    @panel_simple_dsi_probe linux_headers env_no_backlight sc20_dsi_ddc
      world0 in
  err = -517 /\ dsi' = sc20_dsi_ddc /\ panel = None /\ held w' = [] /\
  filter is_power_call (calls w') = [].
Proof.
  assert (Hm : @of_match_node (@dsi_of_match linux_headers)
                 (of_node sc20_dsi_ddc)
               = Some (@sc20_ili9881c linux_headers)) by reflexivity.
  pose (X := @panel_simple_probe linux_headers env_no_backlight
               (of_node sc20_dsi_ddc)
               (Some (dsi_desc (@sc20_ili9881c linux_headers))) world0).
  assert (Hp : X = (-517, None, snd X)) by (vm_compute; reflexivity).
  assert (Herr : -517 < 0) by lia.
  destruct (@dsi_probe_stops_at_probe_failure linux_headers
              env_no_backlight sc20_dsi_ddc world0 _ _ _ _ Hm Hp Herr)
    as (-> & Hh & _).
  split; [reflexivity|]. split; [reflexivity|]. split; [reflexivity|].
  split; [exact Hh|]. vm_compute. reflexivity.
Defined.

(** X12: a DSI probe that returns a panel has matched the node to a
    descriptor of the table and bound it: the device carries the
    descriptor's mode flags, pixel format and lane count, the panel carries
    the descriptor's modes and size and is disabled, and the value returned
    is that of mipi_dsi_attach().  get_modes() on that panel, in any later
    state, sets the connector's width and height to the descriptor's. *)
Theorem dsi_probe_binds_descriptor
    {H : kernel_headers} (e : env) (dsi : mipi_dsi_device) (w : world)
    (r : Z) (dsi' : mipi_dsi_device) (p : panel_simple) (w' : world) :
  panel_simple_dsi_probe e dsi w = (r, dsi', Some p, w') ->
  exists d,
    In (compatible (of_node dsi), d) dsi_of_match /\
    of_node dsi' = of_node dsi /\
    mode_flags dsi' = dsi_flags d /\
    format dsi' = dsi_format d /\
    lanes dsi' = dsi_lanes d /\
    desc p = Some (dsi_desc d) /\
    enabled p = false /\
    r = mipi_dsi_attach_ret e (calls w') /\
    forall w2,
      width_mm (connector (snd (panel_simple_get_modes e p w2)))
        = width (size (dsi_desc d)) /\
      height_mm (connector (snd (panel_simple_get_modes e p w2)))
        = height (size (dsi_desc d)).
Proof.
  intros Hdsi.
  destruct (of_match_node dsi_of_match (of_node dsi)) as [d|] eqn:Hm.
  2:{ unfold panel_simple_dsi_probe in Hdsi. rewrite Hm in Hdsi.
      discriminate. }
  destruct (panel_simple_probe e (of_node dsi) (Some (dsi_desc d)) w)
    as [[err panel] w1] eqn:Hprobe.
  destruct (Z_lt_le_dec err 0) as [Hneg | Hpos].
  - destruct (dsi_probe_stops_at_probe_failure e dsi w Hm Hprobe Hneg)
      as (Hstop & _).
    rewrite Hstop in Hdsi. discriminate.
  - destruct (dsi_probe_after_probe e dsi w Hm Hprobe Hpos)
      as (w'' & Hgo & Hc & _).
    rewrite Hgo in Hdsi. injection Hdsi as <- <- -> <-.
    pose proof (panel_simple_probe_balance e (of_node dsi)
                  (Some (dsi_desc d)) w) as Hb.
    rewrite Hprobe in Hb. destruct Hb as (_ & Hen & Hdesc & _).
    exists d.
    split; [apply of_match_node_in; exact Hm|].
    repeat (split; [reflexivity || assumption|]).
    split; [rewrite Hc; reflexivity|].
    intros w2.
    destruct (get_modes_effect e p w2) as (new & copied & E).
    destruct (panel_simple_get_modes e p w2) as [n w3]. cbn [snd].
    destruct E as (_ & _ & _ & _ & _ & _ & _ & _ & Hd).
    rewrite Hdesc in Hd. destruct Hd as (Hw & Hh & _). auto.
Qed.

Lemma dsi_probe_binds_descriptor_witness :
  exists d,
    In ("sc20,ili9881c", d) (@dsi_of_match linux_headers) /\
    dsi_lanes d = 4 /\
    desc sc20_panel = Some (dsi_desc d) /\
    width_mm (connector (snd (panel_simple_get_modes env_ok sc20_panel
                                world0))) = 59.
Proof.
  pose (X := @panel_simple_dsi_probe linux_headers env_ok sc20_dsi world0).
  assert (Hp : X = (0, snd (fst (fst X)), Some sc20_panel, snd X))
    by (vm_compute; reflexivity).
  destruct (@dsi_probe_binds_descriptor linux_headers env_ok sc20_dsi world0
              _ _ _ _ Hp)
    as (d & Hin & _ & _ & _ & Hl & Hd & _ & _ & Hg).
  exists d.
  split; [exact Hin|].
  split; [rewrite <- Hl; vm_compute; reflexivity|].
  split; [exact Hd|].
  destruct (Hg world0) as (Hw & _).
  rewrite Hw. injection Hd as <-. reflexivity.
Defined.


(** X13: get_modes() appends to the connector's probed list the modes
    drm_add_edid_modes() derived from the EDID, if any, and after them
    descriptor modes in descriptor order, each at most once per call; with
    no descriptor no descriptor mode is added.  get_modes() makes no
    regulator, GPIO-value, backlight or DSI call and holds what was held
    before. *)
Theorem get_modes_keeps_descriptor_order
    (e : env) (p : panel_simple) (w : world) :
  exists new copied,
    calls (snd (panel_simple_get_modes e p w))
      = calls w ++ edid_calls e p w ++ new /\
    probed_modes (connector (snd (panel_simple_get_modes e p w)))
      = probed_modes (connector w) ++ edid_modes e p w ++ copied /\
    modes_added new = copied /\
    subseq copied (match desc p with Some d => modes d | None => [] end) /\
    filter is_power_call (edid_calls e p w ++ new) = [] /\
    held (snd (panel_simple_get_modes e p w)) = held w.
Proof.
  destruct (get_modes_effect e p w) as (new & copied & E).
  destruct (get_modes_order e p w) as (new' & Hc' & _ & Hs & Hq).
  destruct (panel_simple_get_modes e p w) as [n w']. cbn [snd] in *.
  destruct E as (Hc & Hh & _ & _ & Hpm & _ & Hma & _).
  rewrite Hc in Hc'. apply app_inv_head in Hc'. apply app_inv_head in Hc'.
  subst new'.
  exists new, copied.
  split; [exact Hc|]. split; [exact Hpm|]. split; [exact Hma|].
  split; [rewrite <- Hma; exact Hs|].
  split; [|exact Hh].
  rewrite filter_app, Hq, app_nil_r. unfold edid_calls.
  destruct (ddc p) as [bus|]; [|reflexivity].
  destruct (drm_get_edid_ret e (calls w ++ [c_drm_get_edid bus]));
    reflexivity.
Qed.
